(** * SplitBuddy: the add-expense screen

    A shallow embedding of [src/screens/Expenses/AddExpenseScreen.tsx]:
    the twelve [useState] cells of the component, the two loaders run by
    its effects ([loadGroups], [loadSettings]) and the submit handler
    ([handleAddExpense]), together with the two JavaScript built-ins the
    handler relies on ([parseFloat] and [Date.prototype.toISOString]). *)

From Stdlib Require Import ZArith String Ascii List Bool Lia SpecFloat.
From stdpp Require Import base option list strings pretty gmap.

Local Open Scope Z_scope.

(** ** JavaScript values used by the screen *)

(** A JavaScript Number is an IEEE 754 binary64 value. *)
Definition number : Type := spec_float.

Definition NaN : number := S754_nan.

Definition prec64 : Z := 53.
Definition emax64 : Z := 1024.

(** Exceptions that can travel through the component. *)
Inductive Exn : Type :=
| RangeError (message : string)
| Error (message : string).

(** A [Date] object holds a time value: milliseconds since the epoch, or
    NaN ([None]) for an Invalid Date.  Real time values are bounded by
    8.64e15 in absolute value; nothing below needs the bound. *)
Record Date : Type := mkDate { timeValue : option Z }.

Definition isValidDate (d : Date) : bool :=
  match timeValue d with Some _ => true | None => false end.

(** JavaScript strings are represented by their UTF-8 encoding, one
    [ascii] per byte. *)

(** [!s] is false exactly for the empty string. *)
Definition truthy (s : string) : bool :=
  match s with EmptyString => false | String _ _ => true end.

(** ** [parseFloat] *)

Definition byte_of (c : ascii) : Z := Z.of_N (N_of_ascii c).

(** One-byte WhiteSpace and LineTerminator code points:
    TAB, LF, VT, FF, CR and SP. *)
Definition is_space1 (c : ascii) : bool :=
  let b := byte_of c in ((9 <=? b) && (b <=? 13)) || (b =? 32).

(** U+00A0, encoded C2 A0. *)
Definition is_space2 (c1 c2 : ascii) : bool :=
  (byte_of c1 =? 194) && (byte_of c2 =? 160).

(** U+1680, U+2000..U+200A, U+2028, U+2029, U+202F, U+205F, U+3000 and
    U+FEFF in their three-byte encodings. *)
Definition is_space3 (c1 c2 c3 : ascii) : bool :=
  let b1 := byte_of c1 in
  let b2 := byte_of c2 in
  let b3 := byte_of c3 in
  ((b1 =? 225) && (b2 =? 154) && (b3 =? 128))
  || ((b1 =? 226) && (b2 =? 128)
      && (((128 <=? b3) && (b3 <=? 138)) || (b3 =? 168) || (b3 =? 169) || (b3 =? 175)))
  || ((b1 =? 226) && (b2 =? 129) && (b3 =? 159))
  || ((b1 =? 227) && (b2 =? 128) && (b3 =? 128))
  || ((b1 =? 239) && (b2 =? 187) && (b3 =? 191)).

(** TrimString(input, start). *)
Fixpoint trimStart (s : string) : string :=
  match s with
  | EmptyString => s
  | String c1 s1 =>
      if is_space1 c1 then trimStart s1
      else
        match s1 with
        | EmptyString => s
        | String c2 s2 =>
            if is_space2 c1 c2 then trimStart s2
            else
              match s2 with
              | EmptyString => s
              | String c3 s3 =>
                  if is_space3 c1 c2 c3 then trimStart s3 else s
              end
        end
  end.

Definition digit_value (c : ascii) : option Z :=
  let b := byte_of c in
  if (48 <=? b) && (b <=? 57) then Some (b - 48) else None.

(** The longest run of DecimalDigits at the head of [s]: the value of
    the digits read so far, how many were read, and the rest. *)
Fixpoint scan_digits (acc : Z) (count : nat) (s : string) : Z * nat * string :=
  match s with
  | String c s' =>
      match digit_value c with
      | Some d => scan_digits (10 * acc + d) (S count) s'
      | None => (acc, count, s)
      end
  | EmptyString => (acc, count, s)
  end.

Fixpoint starts_with (p s : string) : bool :=
  match p, s with
  | EmptyString, _ => true
  | String a p', String b s' => if Ascii.eqb a b then starts_with p' s' else false
  | String _ _, EmptyString => false
  end.

(** An optional leading sign: whether it is a minus, and the rest. *)
Definition scan_sign (s : string) : bool * string :=
  match s with
  | String c r =>
      if Ascii.eqb c "-" then (true, r)
      else if Ascii.eqb c "+" then (false, r)
      else (false, s)
  | EmptyString => (false, s)
  end.

(** ExponentPart, when one starts at [s]: an indicator [e] or [E], an
    optional sign and at least one digit.  Otherwise the literal ends
    before [s] and the exponent is 0. *)
Definition scan_exponent (s : string) : Z :=
  match s with
  | String c r =>
      if Ascii.eqb c "e" || Ascii.eqb c "E" then
        let '(neg, r1) := scan_sign r in
        let '(v, n, _) := scan_digits 0 0%nat r1 in
        if Nat.eqb n 0 then 0 else if neg then - v else v
      else 0
  | EmptyString => 0
  end.

(** The Number value of the decimal [m * 10^e10], [m] positive, rounded
    to nearest with ties to even. *)
Definition round_decimal (neg : bool) (m : positive) (e10 : Z) : number :=
  match e10 with
  | Zneg k =>
      let '(q, e, l) :=
        SFdiv_core_binary prec64 emax64 (Zpos m) 0 (Z.pow_pos 10 k) 0 in
      binary_round_aux prec64 emax64 neg q e l
  | _ =>
      match Zpos m * 10 ^ e10 with
      | Zpos n => binary_round prec64 emax64 neg n 0
      | _ => S754_zero neg
      end
  end.

(** [parseFloat(input)]: skip leading white space, take the longest
    prefix that is a StrDecimalLiteral, and convert it; NaN when no
    prefix is one. *)
Definition parseFloat (input : string) : number :=
  let '(neg, s) := scan_sign (trimStart input) in
  if starts_with "Infinity" s then S754_infinity neg
  else
    let '(ip, n1, s1) := scan_digits 0 0%nat s in
    let '(m, n2, s2) :=
      match s1 with
      | String c r =>
          if Ascii.eqb c "." then scan_digits ip 0%nat r else (ip, 0%nat, s1)
      | EmptyString => (ip, 0%nat, s1)
      end in
    if Nat.eqb (n1 + n2) 0 then NaN
    else
      match m with
      | Zpos p => round_decimal neg p (scan_exponent s2 - Z.of_nat n2)
      | _ => S754_zero neg
      end.

(** ** [Date.prototype.toISOString] *)

Definition digit_char (d : Z) : ascii := ascii_of_N (Z.to_N (48 + d mod 10)).

(** The last [width] decimal digits of [n], zero padded. *)
Fixpoint pad (width : nat) (n : Z) : string :=
  match width with
  | O => EmptyString
  | S w => pad w (n / 10) +:+ String (digit_char n) EmptyString
  end.

Definition msPerDay : Z := 86400000.

(** Year, month (1..12) and day of month of the civil date that lies
    [days] days after 1970-01-01 in the proleptic Gregorian calendar. *)
Definition civil_from_days (days : Z) : Z * Z * Z :=
  let z := days + 719468 in
  let era := z / 146097 in
  let doe := z - era * 146097 in
  let yoe := (doe - doe / 1460 + doe / 36524 - doe / 146096) / 365 in
  let doy := doe - (365 * yoe + yoe / 4 - yoe / 100) in
  let mp := (5 * doy + 2) / 153 in
  let d := doy - (153 * mp + 2) / 5 + 1 in
  let m := if mp <? 10 then mp + 3 else mp - 9 in
  let y := yoe + era * 400 + (if m <=? 2 then 1 else 0) in
  (y, m, d).

Definition format_year (y : Z) : string :=
  if (0 <=? y) && (y <=? 9999) then pad 4 y
  else (if y <? 0 then "-" else "+") +:+ pad 6 (Z.abs y).

Definition format_iso (t : Z) : string :=
  let '(y, m, d) := civil_from_days (t / msPerDay) in
  let ms := t mod msPerDay in
  format_year y +:+ "-" +:+ pad 2 m +:+ "-" +:+ pad 2 d +:+ "T"
  +:+ pad 2 (ms / 3600000) +:+ ":" +:+ pad 2 (ms / 60000 mod 60) +:+ ":"
  +:+ pad 2 (ms / 1000 mod 60) +:+ "." +:+ pad 3 (ms mod 1000) +:+ "Z".

(** [d.toISOString()] throws a RangeError on an Invalid Date. *)
Definition toISOString (d : Date) : Exn + string :=
  match timeValue d with
  | Some t => inr (format_iso t)
  | None => inl (RangeError "Invalid time value")
  end.

(** ** Data model *)

(** The option shape [{ id: string; name: string }] shared by the three
    option lists. *)
Module Item.
Record t : Type := mk { id : string; name : string }.
End Item.

(** The structural interface that groups and the entries of the static
    master lists satisfy: they have at least an [id] and a [name]. *)
Class Entity (A : Type) : Type := { id : A -> string; name : A -> string }.

#[global] Instance Item_Entity : Entity Item.t :=
  {| id := Item.id; name := Item.name |}.

(** The record built by the submit handler.  [category], [paymentMethod]
    and [group] hold the result of indexing an array at 0, which is
    [undefined] ([None]) on an empty array. *)
Module Expense.
Record t : Type := mk {
  id : string;
  amount : number;
  category : option string;
  description : string;
  date : string;
  paymentMethod : option string;
  group : option string
}.
End Expense.

(** The actions handed to the store's [dispatch]. *)
Inductive Action : Type :=
| addExpense (newExpense : Expense.t)
| showToast (message : string) (type : string).

(** The [useState] cells of the component, in declaration order. *)
Record State : Type := mkState {
  amount : string;
  category : list string;
  description : string;
  selectedDate : option Date;
  paymentMethod : list string;
  group : list string;
  availableGroups : list Item.t;
  availableCategories : list Item.t;
  availablePaymentMethods : list Item.t;
  feedbackMessage : string;
  isSnackbarVisible : bool;
  snackbarSuccess : bool
}.

(** The initial values passed to [useState]. *)
Definition initialState : State :=
  mkState "" [] "" None [] [] [] [] [] "" false true.

(** What lies outside the component: the clock read by [new Date()],
    the number of identifiers [generateUUID] has handed out so far, and
    the actions [dispatch] has been called with, oldest first. *)
Record World : Type := mkWorld {
  clock : Z;
  uuid_calls : nat;
  log : list Action
}.

(** The six fields of the expense draft. *)
Definition form (s : State) :=
  (amount s, category s, description s, selectedDate s, paymentMethod s, group s).

(** The three option lists. *)
Definition options (s : State) :=
  (availableGroups s, availableCategories s, availablePaymentMethods s).

(** The feedback slot. *)
Definition feedback (s : State) :=
  (feedbackMessage s, snackbarSuccess s, isSnackbarVisible s).

(** ** Effects

    A computation runs on the component state and the world; it ends
    with a value or with a thrown exception, and the writes made before
    a throw stay made. *)
Definition M (A : Type) : Type := State * World -> (Exn + A) * (State * World).

#[global] Instance M_ret : MRet M := fun A (a : A) σ => (inr a, σ).

#[global] Instance M_bind : MBind M := fun A B (k : A -> M B) (m : M A) σ =>
  match m σ with
  | (inr a, σ') => k a σ'
  | (inl e, σ') => (inl e, σ')
  end.

(** [try { body } catch (error) { handler }]. *)
Definition try_catch {A : Type} (body : M A) (handler : Exn -> M A) : M A :=
  fun σ =>
    match body σ with
    | (inl e, σ') => handler e σ'
    | r => r
    end.

(** The value of an expression that may throw; also [await] on a promise
    that is fulfilled ([inr]) or rejected ([inl]). *)
Definition await {A : Type} (r : Exn + A) : M A := fun σ => (r, σ).

(** The state captured by the render that created the running closure. *)
Definition closure : M State := fun σ => (inr (fst σ), σ).

Definition modify (f : State -> State) : M unit := fun σ => (inr tt, (f (fst σ), snd σ)).

(** [new Date()]: always a valid date, the current instant. *)
Definition new_Date : M Date := fun σ => (inr (mkDate (Some (clock (snd σ)))), σ).

(** The state setters returned by [useState]. *)
Definition setAmount (v : string) : M unit :=
  modify (fun '(mkState _ c d sd pm g ag ac ap fm sv ss) => mkState v c d sd pm g ag ac ap fm sv ss).
Definition setCategory (v : list string) : M unit :=
  modify (fun '(mkState a _ d sd pm g ag ac ap fm sv ss) => mkState a v d sd pm g ag ac ap fm sv ss).
Definition setDescription (v : string) : M unit :=
  modify (fun '(mkState a c _ sd pm g ag ac ap fm sv ss) => mkState a c v sd pm g ag ac ap fm sv ss).
Definition setSelectedDate (v : option Date) : M unit :=
  modify (fun '(mkState a c d _ pm g ag ac ap fm sv ss) => mkState a c d v pm g ag ac ap fm sv ss).
Definition setPaymentMethod (v : list string) : M unit :=
  modify (fun '(mkState a c d sd _ g ag ac ap fm sv ss) => mkState a c d sd v g ag ac ap fm sv ss).
Definition setGroup (v : list string) : M unit :=
  modify (fun '(mkState a c d sd pm _ ag ac ap fm sv ss) => mkState a c d sd pm v ag ac ap fm sv ss).
Definition setAvailableGroups (v : list Item.t) : M unit :=
  modify (fun '(mkState a c d sd pm g _ ac ap fm sv ss) => mkState a c d sd pm g v ac ap fm sv ss).
Definition setAvailableCategories (v : list Item.t) : M unit :=
  modify (fun '(mkState a c d sd pm g ag _ ap fm sv ss) => mkState a c d sd pm g ag v ap fm sv ss).
Definition setAvailablePaymentMethods (v : list Item.t) : M unit :=
  modify (fun '(mkState a c d sd pm g ag ac _ fm sv ss) => mkState a c d sd pm g ag ac v fm sv ss).
Definition setFeedbackMessage (v : string) : M unit :=
  modify (fun '(mkState a c d sd pm g ag ac ap _ sv ss) => mkState a c d sd pm g ag ac ap v sv ss).
Definition setIsSnackbarVisible (v : bool) : M unit :=
  modify (fun '(mkState a c d sd pm g ag ac ap fm _ ss) => mkState a c d sd pm g ag ac ap fm v ss).
Definition setSnackbarSuccess (v : bool) : M unit :=
  modify (fun '(mkState a c d sd pm g ag ac ap fm sv _) => mkState a c d sd pm g ag ac ap fm sv v).

Definition showFeedback (message : string) (success : bool) : M unit :=
  setFeedbackMessage message;;
  setSnackbarSuccess success;;
  setIsSnackbarVisible true.

Definition handleSnackbarDismiss : M unit := setIsSnackbarVisible false.

Definition handleDateConfirm (date : Date) : M unit := setSelectedDate (Some date).

(** [{ id: x.id, name: x.name }]. *)
Definition project {A : Type} `{Entity A} (x : A) : Item.t :=
  Item.mk (id x) (name x).

(** The properties every ordinary object inherits from
    [Object.prototype]; each reads as a function or, for [__proto__],
    as the prototype object, so each is truthy. *)
Definition objectPrototypeKeys : list string :=
  ["constructor"; "hasOwnProperty"; "isPrototypeOf"; "propertyIsEnumerable";
   "toLocaleString"; "toString"; "valueOf"; "__proto__"; "__defineGetter__";
   "__defineSetter__"; "__lookupGetter__"; "__lookupSetter__"].

Definition inherited (key : string) : bool :=
  existsb (String.eqb key) objectPrototypeKeys.

(** [visible[key]] used as a condition, [visible] being an ordinary
    object whose own entries are the mapping: an own entry gives its
    boolean; an absent key is looked up along the prototype chain and
    reads [undefined], which is falsy, unless it names an inherited
    property, which is truthy. *)
Definition flag (visible : gmap string bool) (key : string) : bool :=
  match visible !! key with
  | Some own => own
  | None => inherited key
  end.

(** ** The component *)

Section AddExpenseScreen.

(** Declared outside this file: the group type of [ExpenseService],
    the static master lists of [@utils/common], the identifier
    generator of [@utils/common] (the identifier returned by its
    [n]-th call), and whether the store's [dispatch] throws on an
    action. *)
Context {Group Category PaymentMethod : Type}.
Context `{!Entity Group, !Entity Category, !Entity PaymentMethod}.
Variable availableCategoriesList : list Category.
Variable availablePaymentMethodsList : list PaymentMethod.
Variable generateUUID : nat -> string.
Variable dispatch_throws : Action -> bool.

(** [dispatch(action)]: the call is logged, then it returns or throws. *)
Definition dispatch (action : Action) : M unit := fun σ =>
  let w := snd σ in
  let σ' := (fst σ, mkWorld (clock w) (uuid_calls w) (log w ++ [action])) in
  if dispatch_throws action then (inl (Error "dispatch"), σ') else (inr tt, σ').

(** [generateUUID()]. *)
Definition call_generateUUID : M string := fun σ =>
  let w := snd σ in
  (inr (generateUUID (uuid_calls w)),
   (fst σ, mkWorld (clock w) (S (uuid_calls w)) (log w))).

(** The body of the mount effect; [getGroups] is the outcome of
    [ExpenseService.getGroups()]. *)
Definition loadGroups (getGroups : Exn + list Group) : M unit :=
  try_catch
    (groups ← await getGroups;
     let groupList := map project groups in
     setAvailableGroups groupList;;
     if (0 <? length groupList)%nat then
       match groupList !! 0%nat with
       | Some first => setGroup [Item.id first]
       | None => mret tt
       end
     else mret tt)
    (fun error => dispatch (showToast "Failed to load groups" "error")).

(** The body of the focus effect; the two arguments are the outcomes
    of [SettingsService.getVisibleCategories()] and
    [SettingsService.getVisiblePaymentMethods()]. *)
Definition loadSettings
    (getVisibleCategories getVisiblePaymentMethods : Exn + gmap string bool) : M unit :=
  try_catch
    (visibleCategories ← await getVisibleCategories;
     let categoriesList :=
       map project
         (List.filter (fun category => flag visibleCategories (id category))
            availableCategoriesList) in
     setAvailableCategories categoriesList;;
     visiblePaymentMethods ← await getVisiblePaymentMethods;
     let paymentMethodsList :=
       map project
         (List.filter (fun method => flag visiblePaymentMethods (id method))
            availablePaymentMethodsList) in
     setAvailablePaymentMethods paymentMethodsList)
    (fun error => dispatch (showToast "Failed to load settings" "error")).

(** The submit handler. *)
Definition handleAddExpense : M unit :=
  this ← closure;
  if negb (truthy (amount this))
     || (length (category this) =? 0)%nat
     || negb (truthy (description this))
     || (length (paymentMethod this) =? 0)%nat
     || (length (group this) =? 0)%nat
  then showFeedback "Please fill out all fields" false
  else
    id ← call_generateUUID;
    day ← match selectedDate this with
          | Some picked => mret picked
          | None => new_Date
          end;
    date ← await (toISOString day);
    let newExpense :=
      Expense.mk id (parseFloat (amount this)) (category this !! 0%nat)
        (description this) date (paymentMethod this !! 0%nat)
        (group this !! 0%nat) in
    try_catch
      (dispatch (addExpense newExpense);;
       showFeedback "Expense added successfully" true;;
       setAmount "";;
       setCategory [];;
       setDescription "";;
       setSelectedDate None;;
       setPaymentMethod [];;
       setGroup (if (0 <? length (availableGroups this))%nat
                 then match availableGroups this !! 0%nat with
                      | Some first => [Item.id first]
                      | None => []
                      end
                 else []))
      (fun error => showFeedback "Failed to add expense" false).

End AddExpenseScreen.

(** ** Reading the result of a run *)

Definition outcome {A : Type} (r : (Exn + A) * (State * World)) : Exn + A := fst r.
Definition state_of {A : Type} (r : (Exn + A) * (State * World)) : State := fst (snd r).
Definition world_of {A : Type} (r : (Exn + A) * (State * World)) : World := snd (snd r).

(** The guard of the submit handler, negated: all five validated fields
    are filled in. *)
Definition filled (s : State) : bool :=
  truthy (amount s)
  && negb (length (category s) =? 0)%nat
  && truthy (description s)
  && negb (length (paymentMethod s) =? 0)%nat
  && negb (length (group s) =? 0)%nat.

(** The state once [showFeedback message success] has run. *)
Definition withFeedback (message : string) (success : bool) (s : State) : State :=
  mkState (amount s) (category s) (description s) (selectedDate s)
    (paymentMethod s) (group s) (availableGroups s) (availableCategories s)
    (availablePaymentMethods s) message true success.

(** The state once one of the setters used by the loaders has run. *)
Definition withAvailableGroups (v : list Item.t) (s : State) : State :=
  mkState (amount s) (category s) (description s) (selectedDate s)
    (paymentMethod s) (group s) v (availableCategories s)
    (availablePaymentMethods s) (feedbackMessage s) (isSnackbarVisible s)
    (snackbarSuccess s).

Definition withGroup (v : list string) (s : State) : State :=
  mkState (amount s) (category s) (description s) (selectedDate s)
    (paymentMethod s) v (availableGroups s) (availableCategories s)
    (availablePaymentMethods s) (feedbackMessage s) (isSnackbarVisible s)
    (snackbarSuccess s).

Definition withAvailableCategories (v : list Item.t) (s : State) : State :=
  mkState (amount s) (category s) (description s) (selectedDate s)
    (paymentMethod s) (group s) (availableGroups s) v
    (availablePaymentMethods s) (feedbackMessage s) (isSnackbarVisible s)
    (snackbarSuccess s).

Definition withAvailablePaymentMethods (v : list Item.t) (s : State) : State :=
  mkState (amount s) (category s) (description s) (selectedDate s)
    (paymentMethod s) (group s) (availableGroups s) (availableCategories s)
    v (feedbackMessage s) (isSnackbarVisible s) (snackbarSuccess s).

(** The group selection after a reset. *)
Definition defaultGroup (groups : list Item.t) : list string :=
  match groups with
  | first :: _ => [Item.id first]
  | [] => []
  end.

(** The state once the six setters that follow a successful dispatch
    have run. *)
Definition resetForm (s : State) : State :=
  mkState "" [] "" None [] (defaultGroup (availableGroups s))
    (availableGroups s) (availableCategories s) (availablePaymentMethods s)
    (feedbackMessage s) (isSnackbarVisible s) (snackbarSuccess s).

(** The record the handler builds once the date has been serialized. *)
Definition draft (generateUUID : nat -> string) (s : State) (w : World)
    (date : string) : Expense.t :=
  Expense.mk (generateUUID (uuid_calls w)) (parseFloat (amount s))
    (category s !! 0%nat) (description s) date
    (paymentMethod s !! 0%nat) (group s !! 0%nat).

(** [selectedDate || new Date()]. *)
Definition submissionDay (s : State) (w : World) : Date :=
  default (mkDate (Some (clock w))) (selectedDate s).

(** The picked date, when there is one, is not an Invalid Date. *)
Definition pickedDateValid (s : State) : Prop :=
  forall d, selectedDate s = Some d -> isValidDate d = true.

(** The world after one more call of [generateUUID]. *)
Definition issued (w : World) : World :=
  mkWorld (clock w) (S (uuid_calls w)) (log w).

(** The world after [dispatch] has been called with [a]. *)
Definition logged (a : Action) (w : World) : World :=
  mkWorld (clock w) (uuid_calls w) (log w ++ [a]).

(** The master list filtered by a visibility mapping and projected. *)
Definition visibleItems {A : Type} `{Entity A}
    (master : list A) (visible : gmap string bool) : list Item.t :=
  map project (List.filter (fun x => flag visible (id x)) master).

(** No entry of the master list has an id that names an inherited
    property. *)
Definition plainIds {A : Type} `{Entity A} (master : list A) : bool :=
  forallb (fun x => negb (inherited (id x))) master.

(** Modelled from the spec: the identifier generator [generateUUID] is
    defined in [@utils/common], outside the file embedded here.  The
    spec describes it as producing "a string unique across all expense
    records" and expects "a non-empty unique id" on every record: no
    call returns the empty string and no two calls return the same
    string. *)
Definition uuid_contract (generateUUID : nat -> string) : Prop :=
  (forall n, generateUUID n <> "") /\
  (forall m n, generateUUID m = generateUUID n -> m = n).

(** ** Sample data *)

Module Sample.

(** A group as a service might return it, with more than the two
    fields the screen keeps. *)
Record group : Type := mkGroup { gid : string; gname : string; members : list string }.

#[global] Instance group_Entity : Entity group := {| id := gid; name := gname |}.

Definition groups : list group :=
  [mkGroup "g1" "Flat" ["ann"; "bob"]; mkGroup "g2" "Trip" ["ann"]].

Definition categories : list Item.t :=
  [Item.mk "food" "Food"; Item.mk "rent" "Rent"; Item.mk "fun" "Fun"].

Definition paymentMethods : list Item.t :=
  [Item.mk "cash" "Cash"; Item.mk "card" "Card"].

Definition uuid (n : nat) : string := "exp-" +:+ pretty n.

Definition world : World := mkWorld 1700000000000 3 [].

(** The form of the spec's second testable property, with one group
    loaded and no date picked. *)
Definition lunch : State :=
  mkState "12.50" ["food"] "lunch" None ["cash"] ["g1"]
    [Item.mk "g1" "Flat"] [] [] "" false true.

Definition lunchRecord : Expense.t :=
  Expense.mk "exp-3" (S754_finite false 7036874417766400 (-49)) (Some "food")
    "lunch" "2023-11-14T22:13:20.000Z" (Some "cash") (Some "g1").

(** The same form with a malformed amount. *)
Definition malformed : State :=
  mkState "abc" ["food"] "lunch" None ["cash"] ["g1"]
    [Item.mk "g1" "Flat"] [] [] "" false true.

(** The same forms holding an Invalid Date, [new Date(NaN)]. *)
Definition lunchInvalidDate : State :=
  mkState "12.50" ["food"] "lunch" (Some (mkDate None)) ["cash"] ["g1"]
    [Item.mk "g1" "Flat"] [] [] "" false true.

Definition malformedInvalidDate : State :=
  mkState "abc" ["food"] "lunch" (Some (mkDate None)) ["cash"] ["g1"]
    [Item.mk "g1" "Flat"] [] [] "" false true.

(** The same form with a negative amount. *)
Definition refund : State :=
  mkState "-5" ["food"] "lunch" None ["cash"] ["g1"]
    [Item.mk "g1" "Flat"] [] [] "" false true.

(** A form with the category left unselected. *)
Definition noCategory : State :=
  mkState "12.50" [] "lunch" None ["cash"] ["g1"]
    [Item.mk "g1" "Flat"] [] [] "" false true.

Definition accepts (a : Action) : bool := false.
Definition rejects (a : Action) : bool := true.

End Sample.

(** ** The rendered elements

    The data props of the element tree the component returns; the style
    props and the callback props (bound in [step] below) are left out. *)
Module View.
Record Input : Type := mkInput {
  placeholder : string;
  value : string;
  keyboardType : option string
}.
Record MultiSelect : Type := mkMultiSelect {
  items : list Item.t;
  selectedItems : list string;
  title : string;
  selectPlaceholder : string;
  fieldLabel : string;
  isSingleSelect : bool
}.
Record DatePicker : Type := mkDatePicker {
  datePlaceholder : string;
  pickedDate : option Date
}.
Record Snackbar : Type := mkSnackbar {
  visible : bool;
  duration : Z;
  backgroundColor : string;
  children : string
}.
Record t : Type := mk {
  amountInput : Input;
  categorySelect : MultiSelect;
  paymentMethodSelect : MultiSelect;
  groupSelect : MultiSelect;
  descriptionInput : Input;
  datePicker : DatePicker;
  button : string;
  snackbar : Snackbar
}.
End View.

Definition render (s : State) : View.t :=
  View.mk
    (View.mkInput "Amount" (amount s) (Some "numeric"))
    (View.mkMultiSelect (availableCategories s) (category s)
       "Select a Category" "Choose Category" "Category" true)
    (View.mkMultiSelect (availablePaymentMethods s) (paymentMethod s)
       "Select a Payment Method" "Choose Payment Method" "Payment Method" true)
    (View.mkMultiSelect (availableGroups s) (group s)
       "Select a Group" "Choose Group" "Group" true)
    (View.mkInput "Description" (description s) None)
    (View.mkDatePicker "Select Date" (selectedDate s))
    "Add Expense"
    (View.mkSnackbar (isSnackbarVisible s) 3000
       (if snackbarSuccess s then "#4CAF50" else "#F44336")
       (feedbackMessage s)).

(** ** The screen as a machine

    The component state, the world, and the lines written to the
    console. *)
Record Screen : Type := mkScreen {
  ui : State;
  env : World;
  console : list string
}.

(** [console.log('Date selection canceled')]. *)
Definition handleDateCancel (console : list string) : list string :=
  console ++ ["Date selection canceled"].

(** What can happen to the mounted screen: a child element calls one of
    the callbacks it was given, an effect's loader runs (taken as a
    whole, with the outcomes of its fetches), or time passes. *)
Inductive Event (Group : Type) : Type :=
| AmountChanged (text : string)
| CategoryChanged (selection : list string)
| PaymentMethodChanged (selection : list string)
| GroupChanged (selection : list string)
| DescriptionChanged (text : string)
| DateChanged (date : option Date)
| DateConfirmed (date : Date)
| DateCanceled
| AddPressed
| SnackbarDismissed
| GroupsLoaded (getGroups : Exn + list Group)
| SettingsLoaded (getVisibleCategories getVisiblePaymentMethods : Exn + gmap string bool)
| TimePassed (now : Z).

Arguments AmountChanged {Group} text.
Arguments CategoryChanged {Group} selection.
Arguments PaymentMethodChanged {Group} selection.
Arguments GroupChanged {Group} selection.
Arguments DescriptionChanged {Group} text.
Arguments DateChanged {Group} date.
Arguments DateConfirmed {Group} date.
Arguments DateCanceled {Group}.
Arguments AddPressed {Group}.
Arguments SnackbarDismissed {Group}.
Arguments GroupsLoaded {Group} getGroups.
Arguments SettingsLoaded {Group} getVisibleCategories getVisiblePaymentMethods.
Arguments TimePassed {Group} now.

(** The events that come from the elements of the screen, as opposed to
    the loaders and the clock. *)
Definition fromUser {Group : Type} (ev : Event Group) : bool :=
  match ev with
  | GroupsLoaded _ | SettingsLoaded _ _ | TimePassed _ => false
  | _ => true
  end.

Definition isAddPressed {Group : Type} (ev : Event Group) : bool :=
  match ev with AddPressed => true | _ => false end.

Definition isDateCanceled {Group : Type} (ev : Event Group) : bool :=
  match ev with DateCanceled => true | _ => false end.

(** A callback runs to its end; what it wrote stays written whether it
    returns or throws. *)
Definition after (m : M unit) (x : Screen) : Screen :=
  mkScreen (state_of (m (ui x, env x))) (world_of (m (ui x, env x))) (console x).

Section Machine.

Context {Group Category PaymentMethod : Type}.
Context `{!Entity Group, !Entity Category, !Entity PaymentMethod}.
Variable availableCategoriesList : list Category.
Variable availablePaymentMethodsList : list PaymentMethod.
Variable generateUUID : nat -> string.
Variable dispatch_throws : Action -> bool.

(** The callback bound to each element, as in the returned tree. *)
Definition step (ev : Event Group) (x : Screen) : Screen :=
  match ev with
  | AmountChanged text => after (setAmount text) x
  | CategoryChanged selection => after (setCategory selection) x
  | PaymentMethodChanged selection => after (setPaymentMethod selection) x
  | GroupChanged selection => after (setGroup selection) x
  | DescriptionChanged text => after (setDescription text) x
  | DateChanged date => after (setSelectedDate date) x
  | DateConfirmed date => after (handleDateConfirm date) x
  | DateCanceled => mkScreen (ui x) (env x) (handleDateCancel (console x))
  | AddPressed => after (handleAddExpense generateUUID dispatch_throws) x
  | SnackbarDismissed => after handleSnackbarDismiss x
  | GroupsLoaded getGroups => after (loadGroups dispatch_throws getGroups) x
  | SettingsLoaded getVisibleCategories getVisiblePaymentMethods =>
      after (loadSettings availableCategoriesList availablePaymentMethodsList
               dispatch_throws getVisibleCategories getVisiblePaymentMethods) x
  | TimePassed now =>
      mkScreen (ui x) (mkWorld now (uuid_calls (env x)) (log (env x))) (console x)
  end.

Fixpoint run_events (evs : list (Event Group)) (x : Screen) : Screen :=
  match evs with
  | [] => x
  | ev :: rest => run_events rest (step ev x)
  end.

End Machine.

(** The screen as first rendered, in a given world. *)
Definition mounted (w : World) : Screen := mkScreen initialState w [].

(** The actions the screen hands to the store: a toast with one of the
    two fixed load messages, or an expense whose description is
    non-empty and whose category, payment method and group are defined. *)
Definition sentByScreen (a : Action) : Prop :=
  match a with
  | showToast message type =>
      type = "error"
      /\ (message = "Failed to load groups" \/ message = "Failed to load settings")
  | addExpense e =>
      Expense.description e <> ""
      /\ Expense.category e <> None
      /\ Expense.paymentMethod e <> None
      /\ Expense.group e <> None
  end.

(** The ids of the expenses among a list of actions, in order. *)
Fixpoint expenseIds (actions : list Action) : list string :=
  match actions with
  | [] => []
  | addExpense e :: rest => Expense.id e :: expenseIds rest
  | showToast _ _ :: rest => expenseIds rest
  end.

(** The four values the message and the success flag take together. *)
Definition feedbackShape (s : State) : Prop :=
  (feedbackMessage s = "" /\ snackbarSuccess s = true /\ isSnackbarVisible s = false)
  \/ (feedbackMessage s = "Please fill out all fields" /\ snackbarSuccess s = false)
  \/ (feedbackMessage s = "Failed to add expense" /\ snackbarSuccess s = false)
  \/ (feedbackMessage s = "Expense added successfully" /\ snackbarSuccess s = true).

(** A sample session: both loaders complete, the form is filled in,
    the date picker is opened and canceled, and the button is pressed
    twice. *)
Module Session.

Definition events : list (Event Sample.group) :=
  [GroupsLoaded (inr Sample.groups);
   SettingsLoaded (inr {[ "food" := true ]}) (inr {[ "cash" := true ]});
   AmountChanged "12.50";
   CategoryChanged ["food"];
   PaymentMethodChanged ["cash"];
   DescriptionChanged "lunch";
   DateCanceled;
   AddPressed;
   TimePassed 1700000060000;
   AmountChanged "3";
   CategoryChanged ["food"];
   PaymentMethodChanged ["cash"];
   DescriptionChanged "coffee";
   AddPressed].

Definition uiOnly : list (Event Sample.group) :=
  [AmountChanged "12.50"; CategoryChanged ["food"]; DateCanceled; AddPressed;
   SnackbarDismissed].

(** Both loaders fail and the user starts typing; the button is not
    pressed. *)
Definition noPress : list (Event Sample.group) :=
  [GroupsLoaded (inl (Error "offline"));
   SettingsLoaded (inl (Error "offline")) (inr ∅);
   AmountChanged "12.50"; DateCanceled; SnackbarDismissed].

(** The user fills in the form of the spec's example. *)
Definition fillIn : list (Event Sample.group) :=
  [AmountChanged "12.50"; CategoryChanged ["food"]; PaymentMethodChanged ["cash"];
   DescriptionChanged "lunch"].

(** The lunch form with an amount of three spaces. *)
Definition blankAmount : State :=
  mkState "   " ["food"] "lunch" None ["cash"] ["g1"]
    [Item.mk "g1" "Flat"] [] [] "" false true.

(** A master list one of whose ids names an inherited property. *)
Definition shadowed : list Item.t :=
  [Item.mk "constructor" "Building"; Item.mk "food" "Food"].

(** The world the first press on the lunch form leaves when dispatch
    throws. *)
Definition afterFailure : World :=
  mkWorld 1700000000000 4 [addExpense Sample.lunchRecord].

(** Every sample category switched on. *)
Definition allOn : gmap string bool :=
  <[ "fun" := true ]> (<[ "rent" := true ]> {[ "food" := true ]}).

End Session.

(** ** The built-ins on examples *)

Example parseFloat_examples :
  parseFloat "12.50" = S754_finite false 7036874417766400 (-49)
  /\ parseFloat "  -0.5e1x" = S754_finite true 5629499534213120 (-50)
  /\ parseFloat ".5" = S754_finite false 4503599627370496 (-53)
  /\ parseFloat "-0" = S754_zero true
  /\ parseFloat "1e400" = S754_infinity false
  /\ parseFloat "-Infinity" = S754_infinity true
  /\ parseFloat "abc" = NaN
  /\ parseFloat "." = NaN
  /\ parseFloat "" = NaN.
Proof. vm_compute. repeat split. Qed.

Example toISOString_examples :
  toISOString (mkDate (Some 0)) = inr "1970-01-01T00:00:00.000Z"
  /\ toISOString (mkDate (Some 1709210096789)) = inr "2024-02-29T12:34:56.789Z"
  /\ toISOString (mkDate (Some (-1))) = inr "1969-12-31T23:59:59.999Z"
  /\ toISOString (mkDate (Some 253402300800000)) = inr "+010000-01-01T00:00:00.000Z"
  /\ toISOString (mkDate None) = inl (RangeError "Invalid time value").
Proof. vm_compute. repeat split. Qed.

Lemma toISOString_valid (d : Date) :
  isValidDate d = true -> exists date, toISOString d = inr date.
Proof.
  unfold isValidDate, toISOString.
  destruct (timeValue d) as [t|]; [eauto | discriminate].
Qed.

Lemma truthy_nonempty (s : string) : truthy s = true <-> s <> "".
Proof. destruct s; simpl; split; congruence. Qed.

Lemma length_nonempty {A : Type} (l : list A) :
  negb (length l =? 0)%nat = true <-> l <> [].
Proof. destruct l; simpl; split; congruence. Qed.

Lemma filled_iff (s : State) :
  filled s = true <->
  amount s <> "" /\ category s <> [] /\ description s <> ""
  /\ paymentMethod s <> [] /\ group s <> [].
Proof.
  unfold filled. rewrite !andb_true_iff, !truthy_nonempty, !length_nonempty.
  tauto.
Qed.

Lemma not_filled_iff (s : State) :
  filled s = false <->
  amount s = "" \/ category s = [] \/ description s = ""
  \/ paymentMethod s = [] \/ group s = [].
Proof.
  destruct s as [a c d sd pm g ag ac ap fm sv ss]; unfold filled; simpl.
  destruct a, c, d, pm, g; simpl; split; intros H; try reflexivity;
    try discriminate; try tauto;
    repeat (destruct H as [H|H]; try discriminate).
Qed.

Lemma app_one_neq {A : Type} (l : list A) (x : A) : l ++ [x] <> l.
Proof.
  intros H. apply (f_equal length) in H. rewrite length_app in H. simpl in H. lia.
Qed.

Lemma sample_uuid_contract : uuid_contract Sample.uuid.
Proof.
  split.
  - intros n. discriminate.
  - intros m n H. unfold Sample.uuid in H. simpl in H.
    injection H as H. by apply (inj pretty).
Qed.

(** ** The submit handler, case by case *)

Section Submit.

Variable generateUUID : nat -> string.
Variable dispatch_throws : Action -> bool.

Lemma showFeedback_run message success s w :
  showFeedback message success (s, w) = (inr tt, (withFeedback message success s, w)).
Proof. destruct s; reflexivity. Qed.

Lemma handleAddExpense_run s w :
  handleAddExpense generateUUID dispatch_throws (s, w) =
  if filled s then
    match toISOString (submissionDay s w) with
    | inl e => (inl e, (s, issued w))
    | inr date =>
        let a := addExpense (draft generateUUID s w date) in
        if dispatch_throws a
        then (inr tt, (withFeedback "Failed to add expense" false s,
                        logged a (issued w)))
        else (inr tt, (withFeedback "Expense added successfully" true (resetForm s),
                        logged a (issued w)))
    end
  else (inr tt, (withFeedback "Please fill out all fields" false s, w)).
Proof.
  destruct s as [a c d sd pm g ag ac ap fm sv ss], w as [ck n lg].
  destruct a, c, d, pm, g; try reflexivity.
  destruct sd as [[[t|]]|], ag; cbv -[parseFloat format_iso app];
    try reflexivity;
    match goal with
    | |- context [dispatch_throws ?x] => destruct (dispatch_throws x)
    end; reflexivity.
Qed.


Local Abbreviation run s w := (handleAddExpense generateUUID dispatch_throws (s, w)).

(** C1.  When the amount text, the category selection, the description
    text, the payment-method selection or the group selection is
    empty, the submit handler returns without calling the store's
    dispatch, shows the failure message "Please fill out all fields",
    and leaves the six form fields as they were. *)
Theorem handleAddExpense_rejects_blank_field (s : State) (w : World) :
  amount s = "" \/ category s = [] \/ description s = ""
  \/ paymentMethod s = [] \/ group s = [] ->
  outcome (run s w) = inr tt
  /\ log (world_of (run s w)) = log w
  /\ feedback (state_of (run s w)) = ("Please fill out all fields", false, true)
  /\ form (state_of (run s w)) = form s.
Proof.
  intros Hblank. apply not_filled_iff in Hblank.
  rewrite handleAddExpense_run, Hblank. repeat split.
Qed.

(** C2, amended.  When the five validated fields are non-empty and the
    picked date, if one is set, is a valid date, the submit handler
    calls dispatch exactly once, with a record whose amount is
    [parseFloat] of the amount text, whose category, payment method
    and group are the first elements of the selection lists, whose
    description is the entered text, whose id is the string returned
    by a new call of the identifier generator (non-empty and distinct
    from the result of every other call, by the generator's contract),
    and whose date is the ISO serialization of the picked date, or of
    the current instant when none is set. *)
Theorem handleAddExpense_dispatches_one_record (s : State) (w : World) :
  uuid_contract generateUUID ->
  amount s <> "" -> category s <> [] -> description s <> "" ->
  paymentMethod s <> [] -> group s <> [] ->
  pickedDateValid s ->
  exists c p g date,
    head (category s) = Some c
    /\ head (paymentMethod s) = Some p
    /\ head (group s) = Some g
    /\ match selectedDate s with
       | Some picked => toISOString picked = inr date
       | None => date = format_iso (clock w)
       end
    /\ log (world_of (run s w)) =
       log w ++ [addExpense
                   (Expense.mk (generateUUID (uuid_calls w))
                      (parseFloat (amount s)) (Some c) (description s)
                      date (Some p) (Some g))]
    /\ uuid_calls (world_of (run s w)) = S (uuid_calls w)
    /\ generateUUID (uuid_calls w) <> ""
    /\ forall k, k <> uuid_calls w -> generateUUID k <> generateUUID (uuid_calls w).
Proof.
  intros [Hne Hinj] Ha Hc Hd Hp Hg Hdate.
  assert (Hfilled : filled s = true) by (apply filled_iff; auto).
  destruct (category s) as [|c cs] eqn:Ec; [congruence|].
  destruct (paymentMethod s) as [|p ps] eqn:Ep; [congruence|].
  destruct (group s) as [|g gs] eqn:Eg; [congruence|].
  assert (Hiso : exists date, toISOString (submissionDay s w) = inr date).
  { unfold submissionDay. destruct (selectedDate s) as [picked|] eqn:Es; simpl.
    - apply toISOString_valid, Hdate, Es.
    - eexists. reflexivity. }
  destruct Hiso as [date Hiso].
  exists c, p, g, date. rewrite handleAddExpense_run, Hfilled, Hiso.
  unfold draft. rewrite Ec, Ep, Eg. simpl.
  split; [reflexivity|]. split; [reflexivity|]. split; [reflexivity|].
  split.
  { unfold submissionDay in Hiso. destruct (selectedDate s); simpl in Hiso.
    - exact Hiso.
    - unfold toISOString in Hiso. simpl in Hiso. congruence. }
  split; [destruct (dispatch_throws _); reflexivity|].
  split; [destruct (dispatch_throws _); reflexivity|].
  split; [apply Hne|].
  intros k Hk Heq. apply Hk, Hinj, Heq.
Qed.

(** C3.  When the call of dispatch made by a submission throws, the
    handler shows the failure message "Failed to add expense" and
    leaves the six form fields as they were before the call. *)
Theorem handleAddExpense_dispatch_failure (s : State) (w : World) (e : Expense.t) :
  log (world_of (run s w)) = log w ++ [addExpense e] ->
  dispatch_throws (addExpense e) = true ->
  outcome (run s w) = inr tt
  /\ feedback (state_of (run s w)) = ("Failed to add expense", false, true)
  /\ form (state_of (run s w)) = form s.
Proof.
  rewrite handleAddExpense_run.
  destruct (filled s); [|intros H; symmetry in H; now apply app_one_neq in H].
  destruct (toISOString _) as [err|date];
    [intros H; symmetry in H; now apply app_one_neq in H|].
  simpl. destruct (dispatch_throws (addExpense (draft _ _ _ _))) eqn:Ethrows.
  - intros _ _. repeat split.
  - simpl. intros Hlog Hthrows. apply app_inv_head in Hlog.
    injection Hlog as <-. congruence.
Qed.

(** C5.  When the call of dispatch made by a submission returns, the
    handler shows the success message "Expense added successfully" and
    resets the form: amount and description to the empty string,
    category and payment method to the empty list, the picked date to
    undefined, and the group to the id of the first loaded group, or
    to the empty list when no group is loaded. *)
Theorem handleAddExpense_success_resets (s : State) (w : World) (e : Expense.t) :
  log (world_of (run s w)) = log w ++ [addExpense e] ->
  dispatch_throws (addExpense e) = false ->
  outcome (run s w) = inr tt
  /\ feedback (state_of (run s w)) = ("Expense added successfully", true, true)
  /\ amount (state_of (run s w)) = ""
  /\ category (state_of (run s w)) = []
  /\ description (state_of (run s w)) = ""
  /\ selectedDate (state_of (run s w)) = None
  /\ paymentMethod (state_of (run s w)) = []
  /\ group (state_of (run s w)) =
     match availableGroups s with
     | first :: _ => [Item.id first]
     | [] => []
     end.
Proof.
  rewrite handleAddExpense_run.
  destruct (filled s); [|intros H; symmetry in H; now apply app_one_neq in H].
  destruct (toISOString _) as [err|date];
    [intros H; symmetry in H; now apply app_one_neq in H|].
  simpl. destruct (dispatch_throws (addExpense (draft _ _ _ _))) eqn:Ethrows.
  - simpl. intros Hlog Hthrows. apply app_inv_head in Hlog.
    injection Hlog as <-. congruence.
  - intros _ _. repeat split.
Qed.

(** C9, amended.  When the amount text is non-empty but [parseFloat]
    turns it into NaN, the other four validated fields are non-empty
    and the picked date, if one is set, is a valid date, the handler
    still dispatches a record, and the amount of that record is NaN. *)
Theorem handleAddExpense_passes_NaN (s : State) (w : World) :
  amount s <> "" -> parseFloat (amount s) = NaN ->
  category s <> [] -> description s <> "" ->
  paymentMethod s <> [] -> group s <> [] ->
  pickedDateValid s ->
  exists e,
    log (world_of (run s w)) = log w ++ [addExpense e]
    /\ Expense.amount e = NaN.
Proof.
  intros Ha Hnan Hc Hd Hp Hg Hdate.
  assert (Hfilled : filled s = true) by (apply filled_iff; auto).
  assert (Hiso : exists date, toISOString (submissionDay s w) = inr date).
  { unfold submissionDay. destruct (selectedDate s) as [picked|] eqn:Es; simpl.
    - apply toISOString_valid, Hdate, Es.
    - eexists. reflexivity. }
  destruct Hiso as [date Hiso].
  exists (draft generateUUID s w date).
  rewrite handleAddExpense_run, Hfilled, Hiso. simpl. split; [|exact Hnan].
  destruct (dispatch_throws _); reflexivity.
Qed.

(** C10.  However a submission ends, the available-group,
    available-category and available-payment-method lists are after
    the call what they were before it. *)
Theorem handleAddExpense_keeps_options (s : State) (w : World) :
  options (state_of (run s w)) = options s.
Proof.
  rewrite handleAddExpense_run.
  destruct (filled s); [|reflexivity].
  destruct (toISOString _) as [err|date]; [reflexivity|].
  simpl. destruct (dispatch_throws _); reflexivity.
Qed.

End Submit.

(** ** The loaders *)

Section Loaders.

Context {Group Category PaymentMethod : Type}.
Context `{!Entity Group, !Entity Category, !Entity PaymentMethod}.
Variable availableCategoriesList : list Category.
Variable availablePaymentMethodsList : list PaymentMethod.
Variable dispatch_throws : Action -> bool.

Local Abbreviation settings rc rp σ :=
  (loadSettings availableCategoriesList availablePaymentMethodsList
     dispatch_throws rc rp σ).

Local Abbreviation groups_run rg σ := (loadGroups (Group := Group) dispatch_throws rg σ).

Lemma dispatch_run (a : Action) (s : State) (w : World) :
  dispatch dispatch_throws a (s, w) =
  (if dispatch_throws a then inl (Error "dispatch") else inr tt, (s, logged a w)).
Proof. unfold dispatch. simpl. destruct (dispatch_throws a); reflexivity. Qed.

Lemma dispatch_state (a : Action) (s : State) (w : World) :
  state_of (dispatch dispatch_throws a (s, w)) = s.
Proof. rewrite dispatch_run. reflexivity. Qed.

Lemma dispatch_log (a : Action) (s : State) (w : World) :
  log (world_of (dispatch dispatch_throws a (s, w))) = log w ++ [a].
Proof. rewrite dispatch_run. reflexivity. Qed.

Lemma loadGroups_run (getGroups : Exn + list Group) (s : State) (w : World) :
  groups_run getGroups (s, w) =
  match getGroups with
  | inl _ => dispatch dispatch_throws (showToast "Failed to load groups" "error") (s, w)
  | inr groups =>
      let s1 := withAvailableGroups (map project groups) s in
      (inr tt, (match groups with
                | first :: _ => withGroup [id first] s1
                | [] => s1
                end, w))
  end.
Proof. destruct getGroups as [err|[|first rest]], s; reflexivity. Qed.

Lemma loadSettings_run (rc rp : Exn + gmap string bool) (s : State) (w : World) :
  settings rc rp (s, w) =
  match rc with
  | inl _ => dispatch dispatch_throws (showToast "Failed to load settings" "error") (s, w)
  | inr vc =>
      let s1 := withAvailableCategories (visibleItems availableCategoriesList vc) s in
      match rp with
      | inl _ =>
          dispatch dispatch_throws (showToast "Failed to load settings" "error") (s1, w)
      | inr vp =>
          (inr tt,
           (withAvailablePaymentMethods (visibleItems availablePaymentMethodsList vp) s1, w))
      end
  end.
Proof. destruct rc as [e1|vc], rp as [e2|vp], s; reflexivity. Qed.

Lemma flag_iff (visible : gmap string bool) (key : string) :
  flag visible key = true <->
  visible !! key = Some true \/ (visible !! key = None /\ inherited key = true).
Proof.
  unfold flag. destruct (visible !! key) as [[]|]; intuition congruence.
Qed.

Lemma flag_plain (visible : gmap string bool) (key : string) :
  inherited key = false ->
  flag visible key = bool_decide (visible !! key = Some true).
Proof.
  intros Hplain. unfold flag. destruct (visible !! key) as [[]|]; auto.
Qed.

Lemma plainIds_elem {A : Type} `{Entity A} (master : list A) (x : A) :
  plainIds master = true -> In x master -> inherited (id x) = false.
Proof.
  unfold plainIds. rewrite forallb_forall. intros Hall Hin.
  apply Hall in Hin. now apply negb_true_iff in Hin.
Qed.

Lemma filter_ext_in_list {A : Type} (f g : A -> bool) (l : list A) :
  (forall x, In x l -> f x = g x) -> List.filter f l = List.filter g l.
Proof.
  induction l as [|x l IH]; intros Hfg; [reflexivity|]. simpl.
  rewrite (Hfg x) by now left. rewrite IH; [reflexivity|].
  intros y Hy. apply Hfg. now right.
Qed.

Lemma visibleItems_spec {A : Type} `{Entity A} (master : list A) (visible : gmap string bool) :
  plainIds master = true ->
  visibleItems master visible =
  map (fun x => Item.mk (id x) (name x))
    (List.filter (fun x => bool_decide (visible !! id x = Some true)) master).
Proof.
  intros Hplain. unfold visibleItems. f_equal. apply filter_ext_in_list.
  intros x Hx. apply flag_plain. now apply (plainIds_elem master).
Qed.

Lemma visibleItems_omitted {A : Type} `{Entity A} (master : list A)
    (visible : gmap string bool) (x : A) :
  plainIds master = true ->
  visible !! id x = None -> Item.mk (id x) (name x) ∉ visibleItems master visible.
Proof.
  intros Hplain Hnone Hin. apply list_elem_of_In in Hin. unfold visibleItems in Hin.
  apply in_map_iff in Hin. destruct Hin as [y [Hy Hin]].
  apply filter_In in Hin. destruct Hin as [Hin Hflag].
  injection Hy as Hid _.
  rewrite (flag_plain _ _ (plainIds_elem master y Hplain Hin)) in Hflag.
  apply bool_decide_eq_true in Hflag. congruence.
Qed.

(** C6.  A run of the group loader whose fetch succeeds sets the
    available-group list to the fetched groups projected to id and name
    and, when that list is non-empty, sets the group selection to the id
    of its first entry; no notification is sent.  A run whose fetch
    fails sends the error notification "Failed to load groups" and
    changes no state cell, so the available-group list and the group
    selection stay as they were. *)
Theorem loadGroups_outcome (getGroups : Exn + list Group) (s : State) (w : World) :
  match getGroups with
  | inr groups =>
      outcome (groups_run getGroups (s, w)) = inr tt
      /\ availableGroups (state_of (groups_run getGroups (s, w))) =
         map (fun g => Item.mk (id g) (name g)) groups
      /\ group (state_of (groups_run getGroups (s, w))) =
         match groups with
         | first :: _ => [id first]
         | [] => group s
         end
      /\ log (world_of (groups_run getGroups (s, w))) = log w
  | inl _ =>
      state_of (groups_run getGroups (s, w)) = s
      /\ log (world_of (groups_run getGroups (s, w))) =
         log w ++ [showToast "Failed to load groups" "error"]
  end.
Proof.
  rewrite loadGroups_run. destruct getGroups as [err|groups].
  - split; [apply dispatch_state | apply dispatch_log].
  - destruct groups; repeat split.
Qed.

(** C4, amended.  A run of the settings loader whose category-visibility
    fetch fails updates neither option list.  A run whose category fetch
    succeeds and whose payment-method fetch fails has already set the
    available-category list to the master list filtered by the lookup
    [visible[id]] and projected to id and name, and leaves the
    available-payment-method list as it was.  Either way exactly one
    error notification, "Failed to load settings", is sent. *)
Theorem loadSettings_failure :
  (forall (err : Exn) (rp : Exn + gmap string bool) (s : State) (w : World),
      availableCategories (state_of (settings (inl err) rp (s, w))) = availableCategories s
      /\ availablePaymentMethods (state_of (settings (inl err) rp (s, w))) =
         availablePaymentMethods s
      /\ log (world_of (settings (inl err) rp (s, w))) =
         log w ++ [showToast "Failed to load settings" "error"])
  /\ (forall (vc : gmap string bool) (err : Exn) (s : State) (w : World),
      availableCategories (state_of (settings (inr vc) (inl err) (s, w))) =
      map (fun c => Item.mk (id c) (name c))
        (List.filter (fun c => flag vc (id c)) availableCategoriesList)
      /\ availablePaymentMethods (state_of (settings (inr vc) (inl err) (s, w))) =
         availablePaymentMethods s
      /\ log (world_of (settings (inr vc) (inl err) (s, w))) =
         log w ++ [showToast "Failed to load settings" "error"]).
Proof.
  split; intros; rewrite loadSettings_run; simpl;
    rewrite dispatch_state, dispatch_log; repeat split.
Qed.

(** C7, amended.  When no id of the two static master lists names a
    property inherited from [Object.prototype], then with both fetches
    successful the settings loader sets the available-category list to
    the entries of the static category list whose visibility flag is
    true, projected to id and name and in master-list order, and the
    available-payment-method list likewise; an entry whose id the
    mapping omits is left out, and no notification is sent. *)
Theorem loadSettings_filters_visible (vc vp : gmap string bool) (s : State) (w : World) :
  plainIds availableCategoriesList = true ->
  plainIds availablePaymentMethodsList = true ->
  outcome (settings (inr vc) (inr vp) (s, w)) = inr tt
  /\ availableCategories (state_of (settings (inr vc) (inr vp) (s, w))) =
     map (fun c => Item.mk (id c) (name c))
       (List.filter (fun c => bool_decide (vc !! id c = Some true))
          availableCategoriesList)
  /\ availablePaymentMethods (state_of (settings (inr vc) (inr vp) (s, w))) =
     map (fun m => Item.mk (id m) (name m))
       (List.filter (fun m => bool_decide (vp !! id m = Some true))
          availablePaymentMethodsList)
  /\ (forall c : Category, vc !! id c = None ->
        Item.mk (id c) (name c) ∉
        availableCategories (state_of (settings (inr vc) (inr vp) (s, w))))
  /\ (forall m : PaymentMethod, vp !! id m = None ->
        Item.mk (id m) (name m) ∉
        availablePaymentMethods (state_of (settings (inr vc) (inr vp) (s, w))))
  /\ log (world_of (settings (inr vc) (inr vp) (s, w))) = log w.
Proof.
  intros Hcats Hpms. rewrite loadSettings_run. simpl.
  split; [reflexivity|]. split; [now apply visibleItems_spec|].
  split; [now apply visibleItems_spec|].
  split; [intros c Hc; now apply visibleItems_omitted|].
  split; [intros m Hm; now apply visibleItems_omitted|reflexivity].
Qed.

(** C8.  Running the settings loader twice in a row on the same fetch
    outcomes leaves, after the second run, the same available-category
    and available-payment-method lists (indeed the same state) as after
    the first. *)
Theorem loadSettings_idempotent (rc rp : Exn + gmap string bool) (s : State) (w : World) :
  availableCategories
    (state_of (settings rc rp (state_of (settings rc rp (s, w)),
                               world_of (settings rc rp (s, w))))) =
  availableCategories (state_of (settings rc rp (s, w)))
  /\ availablePaymentMethods
       (state_of (settings rc rp (state_of (settings rc rp (s, w)),
                                  world_of (settings rc rp (s, w))))) =
     availablePaymentMethods (state_of (settings rc rp (s, w)))
  /\ state_of (settings rc rp (state_of (settings rc rp (s, w)),
                               world_of (settings rc rp (s, w)))) =
     state_of (settings rc rp (s, w)).
Proof.
  rewrite !loadSettings_run.
  destruct rc as [e1|vc]; [|destruct rp as [e2|vp]]; simpl;
    rewrite ?dispatch_state; repeat split.
Qed.

End Loaders.

(** ** The theorems at concrete inputs *)

Example lunch_is_dispatched :
  handleAddExpense Sample.uuid Sample.accepts (Sample.lunch, Sample.world) =
  (inr tt,
   (mkState "" [] "" None [] ["g1"] [Item.mk "g1" "Flat"] [] []
      "Expense added successfully" true true,
    mkWorld 1700000000000 4 [addExpense Sample.lunchRecord])).
Proof. vm_compute. reflexivity. Qed.

Example negative_amount_is_dispatched :
  exists e,
    log (world_of (handleAddExpense Sample.uuid Sample.accepts
                     (Sample.refund, Sample.world))) = [addExpense e]
    /\ Expense.amount e = S754_finite true 5629499534213120 (-50).
Proof. eexists. vm_compute. split; reflexivity. Qed.

Example loadGroups_selects_first :
  state_of (loadGroups Sample.accepts (inr Sample.groups) (initialState, Sample.world)) =
  mkState "" [] "" None [] ["g1"] [Item.mk "g1" "Flat"; Item.mk "g2" "Trip"] [] []
    "" false true.
Proof. vm_compute. reflexivity. Qed.

(** "rent" is switched off and "fun" is missing from the mapping: only
    "food" is offered. *)
Example loadSettings_shows_visible :
  state_of (loadSettings Sample.categories Sample.paymentMethods Sample.accepts
              (inr (<[ "rent" := false ]> {[ "food" := true ]}))
              (inr (<[ "card" := true ]> {[ "cash" := true ]}))
              (initialState, Sample.world)) =
  mkState "" [] "" None [] [] [] [Item.mk "food" "Food"]
    [Item.mk "cash" "Cash"; Item.mk "card" "Card"] "" false true.
Proof. vm_compute. reflexivity. Qed.

Lemma handleAddExpense_invalid_date (generateUUID : nat -> string)
    (dispatch_throws : Action -> bool) (s : State) (w : World) :
  filled s = true -> selectedDate s = Some (mkDate None) ->
  handleAddExpense generateUUID dispatch_throws (s, w) =
  (inl (RangeError "Invalid time value"), (s, issued w)).
Proof.
  intros Hfilled Hdate. rewrite handleAddExpense_run, Hfilled.
  unfold submissionDay. rewrite Hdate. reflexivity.
Qed.

Lemma handleAddExpense_rejects_blank_field_witness :
  outcome (handleAddExpense Sample.uuid Sample.accepts (Sample.noCategory, Sample.world)) = inr tt
  /\ log (world_of (handleAddExpense Sample.uuid Sample.accepts
                      (Sample.noCategory, Sample.world))) = log Sample.world
  /\ feedback (state_of (handleAddExpense Sample.uuid Sample.accepts
                           (Sample.noCategory, Sample.world))) =
     ("Please fill out all fields", false, true)
  /\ form (state_of (handleAddExpense Sample.uuid Sample.accepts
                       (Sample.noCategory, Sample.world))) = form Sample.noCategory.
Proof.
  apply (handleAddExpense_rejects_blank_field Sample.uuid Sample.accepts
           Sample.noCategory Sample.world).
  right; left; reflexivity.
Defined.

Lemma handleAddExpense_dispatches_one_record_witness :
  exists c p g date,
    head (category Sample.lunch) = Some c
    /\ head (paymentMethod Sample.lunch) = Some p
    /\ head (group Sample.lunch) = Some g
    /\ match selectedDate Sample.lunch with
       | Some picked => toISOString picked = inr date
       | None => date = format_iso (clock Sample.world)
       end
    /\ log (world_of (handleAddExpense Sample.uuid Sample.accepts
                        (Sample.lunch, Sample.world))) =
       log Sample.world
       ++ [addExpense
             (Expense.mk (Sample.uuid (uuid_calls Sample.world))
                (parseFloat (amount Sample.lunch)) (Some c)
                (description Sample.lunch) date (Some p) (Some g))]
    /\ uuid_calls (world_of (handleAddExpense Sample.uuid Sample.accepts
                               (Sample.lunch, Sample.world))) =
       S (uuid_calls Sample.world)
    /\ Sample.uuid (uuid_calls Sample.world) <> ""
    /\ forall k, k <> uuid_calls Sample.world ->
                 Sample.uuid k <> Sample.uuid (uuid_calls Sample.world).
Proof.
  apply (handleAddExpense_dispatches_one_record Sample.uuid Sample.accepts
           Sample.lunch Sample.world);
    [apply sample_uuid_contract | discriminate | discriminate | discriminate
    | discriminate | discriminate | intros d Hd; discriminate].
Defined.

(** With an Invalid Date picked, the five validated fields being
    non-empty, [toISOString] throws before the record exists: the
    handler ends with an uncaught RangeError and dispatch is not called. *)
Lemma handleAddExpense_invalid_date_no_dispatch :
  amount Sample.lunchInvalidDate <> ""
  /\ category Sample.lunchInvalidDate <> []
  /\ description Sample.lunchInvalidDate <> ""
  /\ paymentMethod Sample.lunchInvalidDate <> []
  /\ group Sample.lunchInvalidDate <> []
  /\ outcome (handleAddExpense Sample.uuid Sample.accepts
                (Sample.lunchInvalidDate, Sample.world)) =
     inl (RangeError "Invalid time value")
  /\ ~ exists e,
         log (world_of (handleAddExpense Sample.uuid Sample.accepts
                          (Sample.lunchInvalidDate, Sample.world))) =
         log Sample.world ++ [addExpense e].
Proof.
  rewrite handleAddExpense_invalid_date by reflexivity.
  repeat split; try discriminate.
  intros [e He]. discriminate He.
Qed.

Lemma handleAddExpense_dispatch_failure_witness :
  outcome (handleAddExpense Sample.uuid Sample.rejects (Sample.lunch, Sample.world)) = inr tt
  /\ feedback (state_of (handleAddExpense Sample.uuid Sample.rejects
                           (Sample.lunch, Sample.world))) =
     ("Failed to add expense", false, true)
  /\ form (state_of (handleAddExpense Sample.uuid Sample.rejects
                       (Sample.lunch, Sample.world))) = form Sample.lunch.
Proof.
  apply (handleAddExpense_dispatch_failure Sample.uuid Sample.rejects
           Sample.lunch Sample.world Sample.lunchRecord);
    reflexivity.
Defined.

Lemma handleAddExpense_success_resets_witness :
  outcome (handleAddExpense Sample.uuid Sample.accepts (Sample.lunch, Sample.world)) = inr tt
  /\ feedback (state_of (handleAddExpense Sample.uuid Sample.accepts
                           (Sample.lunch, Sample.world))) =
     ("Expense added successfully", true, true)
  /\ amount (state_of (handleAddExpense Sample.uuid Sample.accepts
                         (Sample.lunch, Sample.world))) = ""
  /\ category (state_of (handleAddExpense Sample.uuid Sample.accepts
                           (Sample.lunch, Sample.world))) = []
  /\ description (state_of (handleAddExpense Sample.uuid Sample.accepts
                              (Sample.lunch, Sample.world))) = ""
  /\ selectedDate (state_of (handleAddExpense Sample.uuid Sample.accepts
                               (Sample.lunch, Sample.world))) = None
  /\ paymentMethod (state_of (handleAddExpense Sample.uuid Sample.accepts
                                (Sample.lunch, Sample.world))) = []
  /\ group (state_of (handleAddExpense Sample.uuid Sample.accepts
                        (Sample.lunch, Sample.world))) =
     match availableGroups Sample.lunch with
     | first :: _ => [Item.id first]
     | [] => []
     end.
Proof.
  apply (handleAddExpense_success_resets Sample.uuid Sample.accepts
           Sample.lunch Sample.world Sample.lunchRecord);
    reflexivity.
Defined.

Lemma handleAddExpense_passes_NaN_witness :
  exists e,
    log (world_of (handleAddExpense Sample.uuid Sample.accepts
                     (Sample.malformed, Sample.world))) =
    log Sample.world ++ [addExpense e]
    /\ Expense.amount e = NaN.
Proof.
  apply (handleAddExpense_passes_NaN Sample.uuid Sample.accepts
           Sample.malformed Sample.world);
    [discriminate | reflexivity | discriminate | discriminate | discriminate
    | discriminate | intros d Hd; discriminate].
Defined.

(** A malformed amount does not reach the store when an Invalid Date is
    picked: nothing is dispatched, with or without NaN. *)
Lemma handleAddExpense_malformed_invalid_date_no_dispatch :
  amount Sample.malformedInvalidDate <> ""
  /\ parseFloat (amount Sample.malformedInvalidDate) = NaN
  /\ category Sample.malformedInvalidDate <> []
  /\ description Sample.malformedInvalidDate <> ""
  /\ paymentMethod Sample.malformedInvalidDate <> []
  /\ group Sample.malformedInvalidDate <> []
  /\ ~ exists e,
         log (world_of (handleAddExpense Sample.uuid Sample.accepts
                          (Sample.malformedInvalidDate, Sample.world))) =
         log Sample.world ++ [addExpense e].
Proof.
  rewrite handleAddExpense_invalid_date by reflexivity.
  repeat split; try discriminate.
  intros [e He]. discriminate He.
Qed.

(** The category fetch succeeds, the payment-method fetch fails: the
    available-category list has been updated all the same. *)
Lemma loadSettings_payment_failure_updates_categories :
  availableCategories
    (state_of (loadSettings Sample.categories Sample.paymentMethods Sample.accepts
                 (inr {[ "food" := true ]}) (inl (Error "offline"))
                 (initialState, Sample.world))) =
  [Item.mk "food" "Food"]
  /\ availableCategories
       (state_of (loadSettings Sample.categories Sample.paymentMethods Sample.accepts
                    (inr {[ "food" := true ]}) (inl (Error "offline"))
                    (initialState, Sample.world))) <>
     availableCategories initialState
  /\ log (world_of (loadSettings Sample.categories Sample.paymentMethods Sample.accepts
                      (inr {[ "food" := true ]}) (inl (Error "offline"))
                      (initialState, Sample.world))) =
     [showToast "Failed to load settings" "error"].
Proof.
  vm_compute. repeat split. discriminate.
Qed.

(** The mapping is empty, so "constructor" is omitted from it, yet the
    master entry with that id is offered: the lookup finds the property
    every object inherits. *)
Lemma loadSettings_inherited_key_offered :
  (∅ : gmap string bool) !! "constructor" = None
  /\ availableCategories
       (state_of (loadSettings Session.shadowed Sample.paymentMethods Sample.accepts
                    (inr ∅) (inr ∅) (initialState, Sample.world))) =
     [Item.mk "constructor" "Building"]
  /\ availableCategories
       (state_of (loadSettings Session.shadowed Sample.paymentMethods Sample.accepts
                    (inr ∅) (inr ∅) (initialState, Sample.world))) <>
     map (fun c => Item.mk (id c) (name c))
       (List.filter
          (fun c => bool_decide ((∅ : gmap string bool) !! id c = Some true))
          Session.shadowed).
Proof.
  split; [reflexivity|]. split; [vm_compute; reflexivity|].
  vm_compute. discriminate.
Qed.

Lemma loadSettings_filters_visible_witness :
  outcome (loadSettings Sample.categories Sample.paymentMethods Sample.accepts
             (inr (<[ "rent" := false ]> {[ "food" := true ]}))
             (inr {[ "cash" := true ]}) (initialState, Sample.world)) = inr tt
  /\ availableCategories
       (state_of (loadSettings Sample.categories Sample.paymentMethods Sample.accepts
                    (inr (<[ "rent" := false ]> {[ "food" := true ]}))
                    (inr {[ "cash" := true ]}) (initialState, Sample.world))) =
     map (fun c => Item.mk (id c) (name c))
       (List.filter
          (fun c => bool_decide
                      ((<[ "rent" := false ]> {[ "food" := true ]} : gmap string bool)
                         !! id c = Some true))
          Sample.categories)
  /\ availablePaymentMethods
       (state_of (loadSettings Sample.categories Sample.paymentMethods Sample.accepts
                    (inr (<[ "rent" := false ]> {[ "food" := true ]}))
                    (inr {[ "cash" := true ]}) (initialState, Sample.world))) =
     map (fun m => Item.mk (id m) (name m))
       (List.filter
          (fun m => bool_decide
                      (({[ "cash" := true ]} : gmap string bool) !! id m = Some true))
          Sample.paymentMethods)
  /\ (forall c : Item.t,
        (<[ "rent" := false ]> {[ "food" := true ]} : gmap string bool) !! id c = None ->
        Item.mk (id c) (name c) ∉
        availableCategories
          (state_of (loadSettings Sample.categories Sample.paymentMethods
                       Sample.accepts
                       (inr (<[ "rent" := false ]> {[ "food" := true ]}))
                       (inr {[ "cash" := true ]}) (initialState, Sample.world))))
  /\ (forall m : Item.t,
        ({[ "cash" := true ]} : gmap string bool) !! id m = None ->
        Item.mk (id m) (name m) ∉
        availablePaymentMethods
          (state_of (loadSettings Sample.categories Sample.paymentMethods
                       Sample.accepts
                       (inr (<[ "rent" := false ]> {[ "food" := true ]}))
                       (inr {[ "cash" := true ]}) (initialState, Sample.world))))
  /\ log (world_of (loadSettings Sample.categories Sample.paymentMethods
                      Sample.accepts
                      (inr (<[ "rent" := false ]> {[ "food" := true ]}))
                      (inr {[ "cash" := true ]}) (initialState, Sample.world))) =
     log Sample.world.
Proof.
  apply (loadSettings_filters_visible Sample.categories Sample.paymentMethods
           Sample.accepts (<[ "rent" := false ]> {[ "food" := true ]})
           {[ "cash" := true ]} initialState Sample.world);
    reflexivity.
Defined.

(** ** More on the submit handler *)

Lemma isValidDate_false (d : Date) : isValidDate d = false <-> d = mkDate None.
Proof.
  destruct d as [[t|]]; unfold isValidDate; simpl; split; congruence.
Qed.

Lemma head_lookup0 {A : Type} (l : list A) : l !! 0%nat = head l.
Proof. destruct l; reflexivity. Qed.

Lemma app_one_inv {A : Type} (l : list A) (x y : A) : l ++ [x] = l ++ [y] -> x = y.
Proof. intros H. apply app_inv_head in H. congruence. Qed.

Section SubmitMore.

Variable generateUUID : nat -> string.
Variable dispatch_throws : Action -> bool.

Local Abbreviation run s w := (handleAddExpense generateUUID dispatch_throws (s, w)).

(** What a run that logged [e] looked like. *)
Lemma handleAddExpense_logged s w e :
  log (world_of (run s w)) = log w ++ [addExpense e] ->
  filled s = true
  /\ exists date,
       toISOString (submissionDay s w) = inr date
       /\ e = draft generateUUID s w date
       /\ run s w =
          if dispatch_throws (addExpense e)
          then (inr tt, (withFeedback "Failed to add expense" false s,
                          logged (addExpense e) (issued w)))
          else (inr tt, (withFeedback "Expense added successfully" true
                           (resetForm s),
                          logged (addExpense e) (issued w))).
Proof.
  rewrite handleAddExpense_run.
  destruct (filled s); [|intros H; symmetry in H; now apply app_one_neq in H].
  destruct (toISOString _) as [err|date];
    [intros H; symmetry in H; now apply app_one_neq in H|].
  intros Hlog. split; [reflexivity|]. exists date. split; [reflexivity|].
  assert (He : e = draft generateUUID s w date).
  { cbv zeta in Hlog.
    destruct (dispatch_throws _); cbn [world_of snd log logged issued] in Hlog;
      apply app_one_inv in Hlog; injection Hlog as <-; reflexivity. }
  subst e. split; reflexivity.
Qed.

(** X1.  A press of the button never sends a toast and calls dispatch at
    most once; it leaves the clock alone, and draws an identifier
    exactly when the five validated fields are filled in. *)
Theorem handleAddExpense_world_effect (s : State) (w : World) :
  clock (world_of (run s w)) = clock w
  /\ uuid_calls (world_of (run s w)) =
     (if filled s then S (uuid_calls w) else uuid_calls w)
  /\ (log (world_of (run s w)) = log w
      \/ exists e, log (world_of (run s w)) = log w ++ [addExpense e]).
Proof.
  rewrite handleAddExpense_run. destruct (filled s).
  - destruct (toISOString _) as [err|date]; simpl.
    + repeat split. now left.
    + destruct (dispatch_throws _); simpl; repeat split; right; eauto.
  - simpl. repeat split. now left.
Qed.

(** X2.  A record handed to dispatch is complete: its description is
    the non-empty text of the form, its category, payment method and
    group are the heads of non-empty selections (never undefined), its
    amount is [parseFloat] of a non-empty text and its id is the
    identifier just drawn. *)
Theorem handleAddExpense_record_complete (s : State) (w : World) (e : Expense.t) :
  log (world_of (run s w)) = log w ++ [addExpense e] ->
  Expense.id e = generateUUID (uuid_calls w)
  /\ amount s <> "" /\ Expense.amount e = parseFloat (amount s)
  /\ Expense.description e = description s /\ Expense.description e <> ""
  /\ Expense.category e = head (category s) /\ Expense.category e <> None
  /\ Expense.paymentMethod e = head (paymentMethod s) /\ Expense.paymentMethod e <> None
  /\ Expense.group e = head (group s) /\ Expense.group e <> None.
Proof.
  intros Hlog. apply handleAddExpense_logged in Hlog.
  destruct Hlog as [Hfilled [date [_ [-> _]]]].
  apply filled_iff in Hfilled. destruct Hfilled as [Ha [Hc [Hd [Hp Hg]]]].
  unfold draft. simpl. rewrite !head_lookup0.
  destruct (category s), (paymentMethod s), (group s); try congruence.
  repeat split; auto; discriminate.
Qed.

(** X3.  The handler throws exactly when the five validated fields are
    filled in and the picked date is an Invalid Date; what it throws is
    then the RangeError of [toISOString]. *)
Theorem handleAddExpense_throws_iff (s : State) (w : World) (err : Exn) :
  outcome (run s w) = inl err <->
  filled s = true /\ selectedDate s = Some (mkDate None)
  /\ err = RangeError "Invalid time value".
Proof.
  rewrite handleAddExpense_run. unfold submissionDay, toISOString. split.
  - destruct (filled s); [|discriminate].
    destruct (selectedDate s) as [[[t|]]|]; simpl;
      try (destruct (dispatch_throws _); discriminate).
    intros [= <-]. auto.
  - intros [-> [-> ->]]. reflexivity.
Qed.

(** X4.  When the handler throws, no state cell has changed (so no
    feedback is shown) and dispatch has not been called; one identifier
    has been drawn and is lost. *)
Theorem handleAddExpense_throw_is_silent (s : State) (w : World) (err : Exn) :
  outcome (run s w) = inl err ->
  state_of (run s w) = s
  /\ log (world_of (run s w)) = log w
  /\ uuid_calls (world_of (run s w)) = S (uuid_calls w).
Proof.
  rewrite handleAddExpense_run.
  destruct (filled s); [|discriminate].
  destruct (toISOString _) as [e|date]; simpl.
  - intros _. repeat split.
  - destruct (dispatch_throws _); discriminate.
Qed.

(** X5.  When the handler returns, the snackbar is visible, and it is
    green exactly when a record was handed to dispatch and dispatch
    returned. *)
Theorem handleAddExpense_green_iff_stored (s : State) (w : World) :
  outcome (run s w) = inr tt ->
  View.visible (View.snackbar (render (state_of (run s w)))) = true
  /\ (View.backgroundColor (View.snackbar (render (state_of (run s w)))) = "#4CAF50"
      <-> exists e, log (world_of (run s w)) = log w ++ [addExpense e]
                    /\ dispatch_throws (addExpense e) = false).
Proof.
  rewrite handleAddExpense_run.
  destruct (filled s).
  - destruct (toISOString _) as [e|date]; [discriminate|]. simpl.
    destruct (dispatch_throws _) eqn:Ethrows; simpl; intros _.
    + split; [reflexivity|]. split; [discriminate|].
      intros [e [He1 He2]]. apply app_one_inv in He1. congruence.
    + split; [reflexivity|]. split; [|reflexivity].
      intros _. eexists. split; [reflexivity|exact Ethrows].
  - simpl. intros _. split; [reflexivity|]. split; [discriminate|].
    intros [e [He _]]. symmetry in He. now apply app_one_neq in He.
Qed.

(** X6.  After a submission that was stored, pressing the button again
    without touching the form is turned down: nothing is dispatched and
    the message asks to fill out all fields. *)
Theorem handleAddExpense_second_press_rejected (s : State) (w w2 : World) (e : Expense.t) :
  log (world_of (run s w)) = log w ++ [addExpense e] ->
  dispatch_throws (addExpense e) = false ->
  log (world_of (run (state_of (run s w)) w2)) = log w2
  /\ feedback (state_of (run (state_of (run s w)) w2)) =
     ("Please fill out all fields", false, true).
Proof.
  intros Hlog Hok. apply handleAddExpense_logged in Hlog.
  destruct Hlog as [_ [date [_ [_ Hrun]]]]. rewrite Hok in Hrun.
  rewrite Hrun. simpl. rewrite handleAddExpense_run. simpl. split; reflexivity.
Qed.

(** X7.  When the generator never repeats itself: after a submission
    whose dispatch threw, pressing the button again without touching
    the form, in any later world (one in which the generator has been
    called at least as often as the first attempt left it), hands
    dispatch the same record under a new identifier.  The id is the one
    drawn by the second press and differs from the first attempt's;
    amount, category, description, payment method and group are those
    of the first attempt, and so is the date when one was picked or the
    clock has not moved. *)
Theorem handleAddExpense_retry (s : State) (w w2 : World) (e : Expense.t) :
  (forall m n, generateUUID m = generateUUID n -> m = n) ->
  log (world_of (run s w)) = log w ++ [addExpense e] ->
  dispatch_throws (addExpense e) = true ->
  (uuid_calls (world_of (run s w)) <= uuid_calls w2)%nat ->
  exists e2,
    log (world_of (run (state_of (run s w)) w2)) = log w2 ++ [addExpense e2]
    /\ Expense.id e2 = generateUUID (uuid_calls w2)
    /\ Expense.id e2 <> Expense.id e
    /\ Expense.amount e2 = Expense.amount e
    /\ Expense.category e2 = Expense.category e
    /\ Expense.description e2 = Expense.description e
    /\ Expense.paymentMethod e2 = Expense.paymentMethod e
    /\ Expense.group e2 = Expense.group e
    /\ (selectedDate s <> None \/ clock w2 = clock w ->
        Expense.date e2 = Expense.date e).
Proof.
  intros Hinj Hlog Hthrows. apply handleAddExpense_logged in Hlog.
  destruct Hlog as [Hfilled [date [Hdate [-> Hrun]]]]. rewrite Hthrows in Hrun.
  rewrite Hrun. cbn [state_of world_of fst snd logged issued uuid_calls].
  intros Hlater.
  assert (Hfilled' : filled (withFeedback "Failed to add expense" false s) = true)
    by exact Hfilled.
  assert (Hdate2 : exists date2,
             toISOString (submissionDay s w2) = inr date2
             /\ (selectedDate s <> None \/ clock w2 = clock w -> date2 = date)).
  { unfold submissionDay, toISOString in *.
    destruct (selectedDate s) as [d|]; simpl in *.
    - exists date. auto.
    - eexists. split; [reflexivity|]. intros [H|H]; [congruence|].
      rewrite H. congruence. }
  destruct Hdate2 as [date2 [Hdate2 Hsame]].
  exists (draft generateUUID s w2 date2).
  rewrite handleAddExpense_run, Hfilled'.
  change (submissionDay (withFeedback "Failed to add expense" false s) w2)
    with (submissionDay s w2).
  rewrite Hdate2. cbv zeta.
  change (draft generateUUID (withFeedback "Failed to add expense" false s) w2 date2)
    with (draft generateUUID s w2 date2).
  split;
    [destruct (dispatch_throws (addExpense (draft generateUUID s w2 date2)));
     reflexivity|].
  split; [reflexivity|]. split.
  { cbn [draft Expense.id]. intros Heq. apply Hinj in Heq. lia. }
  repeat split. exact Hsame.
Qed.

(** X8.  A date confirmed in the picker is the date of the next record:
    with the five validated fields filled in, the record handed to
    dispatch carries the ISO form of the confirmed instant, whatever
    the clock says. *)
Theorem handleDateConfirm_then_submit (s : State) (w : World) (t : Z) :
  filled s = true ->
  exists e,
    log (world_of (run (state_of (handleDateConfirm (mkDate (Some t)) (s, w))) w)) =
    log w ++ [addExpense e]
    /\ Expense.date e = format_iso t
    /\ Expense.description e = description s.
Proof.
  intros Hfilled. destruct s as [a c d sd pm g ag ac ap fm sv ss].
  set (s1 := mkState a c d (Some (mkDate (Some t))) pm g ag ac ap fm sv ss).
  change (state_of (handleDateConfirm (mkDate (Some t)) _)) with s1.
  exists (draft generateUUID s1 w (format_iso t)).
  rewrite handleAddExpense_run.
  change (filled s1) with (filled (mkState a c d sd pm g ag ac ap fm sv ss)).
  rewrite Hfilled.
  change (toISOString (submissionDay s1 w)) with (@inr Exn string (format_iso t)).
  cbv zeta.
  split;
    [destruct (dispatch_throws (addExpense (draft generateUUID s1 w (format_iso t))));
     reflexivity|].
  split; reflexivity.
Qed.

End SubmitMore.

(** ** More on [parseFloat] *)

Lemma parseFloat_blank (s : string) : trimStart s = "" -> parseFloat s = NaN.
Proof. intros H. unfold parseFloat. rewrite H. reflexivity. Qed.

Lemma shr_1_nonneg (mrs : shr_record) : 0 <= shr_m mrs -> 0 <= shr_m (shr_1 mrs).
Proof.
  destruct mrs as [m r s]. simpl. intros Hm.
  destruct m as [|[p|p|]|p]; simpl; lia.
Qed.

Lemma iter_shr_1_nonneg (n : positive) (mrs : shr_record) :
  0 <= shr_m mrs -> 0 <= shr_m (SpecFloat.iter_pos shr_1 n mrs).
Proof.
  revert mrs. induction n as [n IH|n IH|]; intros mrs Hm; simpl.
  - apply IH, IH, shr_1_nonneg, Hm.
  - apply IH, IH, Hm.
  - apply shr_1_nonneg, Hm.
Qed.

Lemma shr_fexp_nonneg (m e : Z) (l : location) :
  0 <= m -> 0 <= shr_m (fst (shr_fexp prec64 emax64 m e l)).
Proof.
  intros Hm. unfold shr_fexp, shr.
  assert (H0 : 0 <= shr_m (shr_record_of_loc m l)) by (destruct l as [|[]]; exact Hm).
  destruct (fexp prec64 emax64 (Zdigits2 m + e) - e) as [|p|p]; simpl; auto.
  apply iter_shr_1_nonneg, H0.
Qed.

Lemma round_nearest_even_nonneg (m : Z) (l : location) :
  0 <= m -> 0 <= round_nearest_even m l.
Proof.
  intros Hm. destruct l as [|[]]; simpl; try lia.
  destruct (Z.even m); lia.
Qed.

Lemma binary_round_aux_not_nan (sx : bool) (mx ex : Z) (lx : location) :
  0 <= mx -> binary_round_aux prec64 emax64 sx mx ex lx <> S754_nan.
Proof.
  intros Hm. unfold binary_round_aux.
  pose proof (shr_fexp_nonneg mx ex lx Hm) as H1.
  destruct (shr_fexp prec64 emax64 mx ex lx) as [mrs' e']. simpl in H1.
  pose proof (shr_fexp_nonneg _ e' loc_Exact
                (round_nearest_even_nonneg _ (loc_of_shr_record mrs') H1)) as H2.
  destruct (shr_fexp prec64 emax64 _ e' loc_Exact) as [mrs'' e'']. simpl in H2.
  destruct (shr_m mrs'') as [|p|p]; [discriminate| |lia].
  destruct (e'' <=? emax64 - prec64); discriminate.
Qed.

Lemma SFdiv_core_quotient_nonneg (m1 e1 m2 e2 : Z) :
  0 <= m1 -> 0 < m2 ->
  0 <= fst (fst (SFdiv_core_binary prec64 emax64 m1 e1 m2 e2)).
Proof.
  intros H1 H2. unfold SFdiv_core_binary.
  set (sh := e1 - e2 - _).
  set (m' := match sh with Z0 => m1 | Zpos _ => Z.shiftl m1 sh | Zneg _ => 0 end).
  assert (Hm' : 0 <= m').
  { subst m'. destruct sh; try lia. apply Z.shiftl_nonneg, H1. }
  pose proof (Z_div_mod m' m2 ltac:(lia)) as Hdiv.
  destruct (Z.div_eucl m' m2) as [q r]. simpl. nia.
Qed.

Lemma round_decimal_not_nan (neg : bool) (m : positive) (e10 : Z) :
  round_decimal neg m e10 <> NaN.
Proof.
  unfold round_decimal, NaN.
  assert (Hint : forall n : Z,
             match n with
             | Zpos p => binary_round prec64 emax64 neg p 0
             | _ => S754_zero neg
             end <> S754_nan).
  { intros [|p|p]; try discriminate. unfold binary_round.
    destruct (shl_align _ _ _) as [mz ez]. now apply binary_round_aux_not_nan. }
  destruct e10 as [|k|k]; try apply Hint.
  pose proof (SFdiv_core_quotient_nonneg (Zpos m) 0 (Z.pow_pos 10 k) 0
                ltac:(lia)
                ltac:(change (Z.pow_pos 10 k) with (10 ^ Zpos k);
                      apply Z.pow_pos_nonneg; lia)) as Hq.
  destruct (SFdiv_core_binary _ _ _ _ _ _) as [[q e] l]. simpl in Hq.
  now apply binary_round_aux_not_nan.
Qed.

Lemma scan_digits_count (acc : Z) (count : nat) (s : string) :
  (count <= snd (fst (scan_digits acc count s)))%nat.
Proof.
  revert acc count. induction s as [|c s IH]; intros acc count; simpl; [lia|].
  destruct (digit_value c); simpl; [|lia].
  specialize (IH (10 * acc + z) (S count)). lia.
Qed.

Lemma parseFloat_leading_digit (c : ascii) (d : Z) (rest : string) :
  digit_value c = Some d -> parseFloat (String c rest) <> NaN.
Proof.
  intros Hd.
  assert (Hhead : trimStart (String c rest) = String c rest
                  /\ scan_sign (String c rest) = (false, String c rest)
                  /\ starts_with "Infinity" (String c rest) = false).
  { destruct c as [[] [] [] [] [] [] [] []]; try discriminate Hd;
      (split; [destruct rest as [|c2 [|c3 s3]]; reflexivity | split; reflexivity]). }
  destruct Hhead as [Htrim [Hsign Hinf]].
  unfold parseFloat. rewrite Htrim, Hsign, Hinf.
  cbn [scan_digits]. rewrite Hd.
  pose proof (scan_digits_count (10 * 0 + d) 1 rest) as Hcount.
  destruct (scan_digits (10 * 0 + d) 1 rest) as [[ip n1] s1]. simpl in Hcount.
  assert (Hmant : forall (t : Z * nat * string),
             (let '(m, n2, s2) := t in
              if Nat.eqb (n1 + n2) 0 then NaN
              else match m with
                   | Zpos p => round_decimal false p (scan_exponent s2 - Z.of_nat n2)
                   | _ => S754_zero false
                   end) <> NaN).
  { intros [[m n2] s2]. destruct (Nat.eqb_spec (n1 + n2) 0) as [H0|_]; [lia|].
    destruct m; try discriminate. apply round_decimal_not_nan. }
  apply Hmant.
Qed.

Section SubmitAmount.

Variable generateUUID : nat -> string.
Variable dispatch_throws : Action -> bool.

Local Abbreviation run s w := (handleAddExpense generateUUID dispatch_throws (s, w)).

(** X9.  An amount text that begins with a decimal digit never reaches
    the store as NaN, whatever follows the digit. *)
Theorem handleAddExpense_digit_amount (s : State) (w : World) (e : Expense.t)
    (c : ascii) (d : Z) (rest : string) :
  amount s = String c rest -> digit_value c = Some d ->
  log (world_of (run s w)) = log w ++ [addExpense e] ->
  Expense.amount e <> NaN.
Proof.
  intros Hamount Hd Hlog. apply handleAddExpense_logged in Hlog.
  destruct Hlog as [_ [date [_ [-> _]]]]. simpl. rewrite Hamount.
  now apply (parseFloat_leading_digit c d).
Qed.

(** X10.  The guard does not trim: an amount that is non-empty but made
    of white space only passes it, and the record handed to dispatch
    carries NaN. *)
Theorem handleAddExpense_blank_amount (s : State) (w : World) :
  amount s <> "" -> trimStart (amount s) = "" ->
  category s <> [] -> description s <> "" ->
  paymentMethod s <> [] -> group s <> [] ->
  selectedDate s = None ->
  exists e,
    log (world_of (run s w)) = log w ++ [addExpense e]
    /\ Expense.amount e = NaN
    /\ Expense.date e = format_iso (clock w).
Proof.
  intros Ha Hblank Hc Hd Hp Hg Hdate.
  assert (Hfilled : filled s = true) by (apply filled_iff; auto).
  exists (draft generateUUID s w (format_iso (clock w))).
  rewrite handleAddExpense_run, Hfilled. unfold submissionDay. rewrite Hdate.
  cbn [default from_option toISOString timeValue]. cbv zeta.
  split;
    [destruct (dispatch_throws
                 (addExpense (draft generateUUID s w (format_iso (clock w)))));
     reflexivity|].
  split; [apply parseFloat_blank, Hblank | reflexivity].
Qed.

End SubmitAmount.

(** ** More on the loaders *)

Lemma filter_sublist {A : Type} (f : A -> bool) (l : list A) :
  sublist (List.filter f l) l.
Proof.
  induction l as [|x l IH]; simpl; [constructor|].
  destruct (f x); now constructor.
Qed.

Lemma map_sublist {A B : Type} (f : A -> B) (l k : list A) :
  sublist l k -> sublist (map f l) (map f k).
Proof. induction 1; simpl; now constructor. Qed.

Lemma visibleItems_sublist {A : Type} `{Entity A} (master : list A)
    (visible : gmap string bool) :
  sublist (visibleItems master visible) (map project master).
Proof. apply map_sublist, filter_sublist. Qed.

Lemma visibleItems_ids {A : Type} `{Entity A} (master : list A)
    (visible : gmap string bool) :
  map Item.id (visibleItems master visible) =
  List.filter (flag visible) (map id master).
Proof.
  unfold visibleItems. induction master as [|x l IH]; simpl; [reflexivity|].
  destruct (flag visible (id x)); simpl; now rewrite IH.
Qed.

Lemma visibleItems_elem {A : Type} `{Entity A} (master : list A)
    (visible : gmap string bool) (item : Item.t) :
  item ∈ visibleItems master visible <->
  exists x, x ∈ master
            /\ (visible !! id x = Some true
                \/ (visible !! id x = None /\ inherited (id x) = true))
            /\ item = Item.mk (id x) (name x).
Proof.
  rewrite list_elem_of_In. unfold visibleItems. rewrite in_map_iff. split.
  - intros [x [Hx Hin]]. apply filter_In in Hin. destruct Hin as [Hin Hflag].
    exists x. rewrite list_elem_of_In. apply flag_iff in Hflag. auto.
  - intros [x [Hin [Hvis ->]]]. exists x. split; [reflexivity|].
    apply filter_In. rewrite list_elem_of_In in Hin. split; [exact Hin|].
    now apply flag_iff.
Qed.

Lemma visibleItems_toggle_off {A : Type} `{Entity A} (master : list A)
    (visible : gmap string bool) (key : string) :
  visibleItems master (<[key := false]> visible) =
  List.filter (fun item => negb (String.eqb (Item.id item) key))
    (visibleItems master visible).
Proof.
  unfold visibleItems. induction master as [|x l IH]; simpl; [reflexivity|].
  destruct (String.eqb_spec (id x) key) as [Heq|Hne].
  - assert (Hoff : flag (<[key := false]> visible) (id x) = false)
      by (unfold flag; now rewrite Heq, lookup_insert_eq).
    rewrite Hoff, IH.
    destruct (flag visible (id x)); simpl; [|reflexivity].
    now rewrite Heq, String.eqb_refl.
  - assert (Hsame : flag (<[key := false]> visible) (id x) = flag visible (id x))
      by (unfold flag; now rewrite lookup_insert_ne by congruence).
    rewrite Hsame.
    destruct (flag visible (id x)); simpl; rewrite IH; [|reflexivity].
    destruct (String.eqb_spec (id x) key); [contradiction|reflexivity].
Qed.

Section LoadersMore.

Context {Group Category PaymentMethod : Type}.
Context `{!Entity Group, !Entity Category, !Entity PaymentMethod}.
Variable availableCategoriesList : list Category.
Variable availablePaymentMethodsList : list PaymentMethod.
Variable dispatch_throws : Action -> bool.

Local Abbreviation settings rc rp σ :=
  (loadSettings availableCategoriesList availablePaymentMethodsList
     dispatch_throws rc rp σ).

Local Abbreviation groups_run rg σ := (loadGroups (Group := Group) dispatch_throws rg σ).

(** X11.  A run of the settings loader touches nothing but the two
    lists it loads: the form (a selected category stays selected even
    when the reload no longer offers it), the group list and the
    feedback slot are as before, no identifier is drawn, and dispatch
    is called exactly when a fetch failed, once, with the toast. *)
Theorem loadSettings_frame (rc rp : Exn + gmap string bool) (s : State) (w : World) :
  form (state_of (settings rc rp (s, w))) = form s
  /\ availableGroups (state_of (settings rc rp (s, w))) = availableGroups s
  /\ feedback (state_of (settings rc rp (s, w))) = feedback s
  /\ uuid_calls (world_of (settings rc rp (s, w))) = uuid_calls w
  /\ log (world_of (settings rc rp (s, w))) =
     match rc, rp with
     | inr _, inr _ => log w
     | _, _ => log w ++ [showToast "Failed to load settings" "error"]
     end.
Proof.
  rewrite loadSettings_run.
  destruct rc as [e1|vc]; [|destruct rp as [e2|vp]]; cbv zeta;
    rewrite ?dispatch_run; repeat split.
Qed.

(** X12.  A run of the group loader touches nothing but the group list
    and the group selection: amount, category, description, picked
    date, payment method, the two settings lists and the feedback slot
    are as before, and no identifier is drawn. *)
Theorem loadGroups_frame (getGroups : Exn + list Group) (s : State) (w : World) :
  amount (state_of (groups_run getGroups (s, w))) = amount s
  /\ category (state_of (groups_run getGroups (s, w))) = category s
  /\ description (state_of (groups_run getGroups (s, w))) = description s
  /\ selectedDate (state_of (groups_run getGroups (s, w))) = selectedDate s
  /\ paymentMethod (state_of (groups_run getGroups (s, w))) = paymentMethod s
  /\ availableCategories (state_of (groups_run getGroups (s, w))) = availableCategories s
  /\ availablePaymentMethods (state_of (groups_run getGroups (s, w))) =
     availablePaymentMethods s
  /\ feedback (state_of (groups_run getGroups (s, w))) = feedback s
  /\ uuid_calls (world_of (groups_run getGroups (s, w))) = uuid_calls w.
Proof.
  rewrite loadGroups_run.
  destruct getGroups as [err|[|first rest]]; cbv zeta;
    rewrite ?dispatch_run; repeat split.
Qed.

(** X13.  Once the category fetch has succeeded, whatever becomes of
    the payment-method fetch, the categories on offer are exactly the
    projections of the master entries whose flag is true, or whose id
    the mapping omits while it names a property every object inherits
    (such as "constructor"), in master-list order. *)
Theorem loadSettings_offers_exactly (vc : gmap string bool)
    (rp : Exn + gmap string bool) (s : State) (w : World) (item : Item.t) :
  (item ∈ availableCategories (state_of (settings (inr vc) rp (s, w))) <->
   exists c, c ∈ availableCategoriesList
             /\ (vc !! id c = Some true
                 \/ (vc !! id c = None /\ inherited (id c) = true))
             /\ item = Item.mk (id c) (name c))
  /\ sublist (availableCategories (state_of (settings (inr vc) rp (s, w))))
       (map (fun c => Item.mk (id c) (name c)) availableCategoriesList).
Proof.
  rewrite loadSettings_run. cbv zeta.
  assert (Hcats : availableCategories
                    (state_of
                       match rp with
                       | inl _ =>
                           dispatch dispatch_throws
                             (showToast "Failed to load settings" "error")
                             (withAvailableCategories
                                (visibleItems availableCategoriesList vc) s, w)
                       | inr vp =>
                           (inr tt,
                            (withAvailablePaymentMethods
                               (visibleItems availablePaymentMethodsList vp)
                               (withAvailableCategories
                                  (visibleItems availableCategoriesList vc) s), w))
                       end) = visibleItems availableCategoriesList vc).
  { destruct rp; [rewrite dispatch_state|]; reflexivity. }
  rewrite Hcats. split; [apply visibleItems_elem | apply visibleItems_sublist].
Qed.

(** X14.  With empty mappings (every key missing) the loader offers
    only the master entries whose id names a property every object
    inherits; when no master id does, it offers nothing and both lists
    become empty.  No error is reported. *)
Theorem loadSettings_empty_mappings (s : State) (w : World) :
  availableCategories (state_of (settings (inr ∅) (inr ∅) (s, w))) =
  map (fun c => Item.mk (id c) (name c))
    (List.filter (fun c => inherited (id c)) availableCategoriesList)
  /\ availablePaymentMethods (state_of (settings (inr ∅) (inr ∅) (s, w))) =
     map (fun m => Item.mk (id m) (name m))
       (List.filter (fun m => inherited (id m)) availablePaymentMethodsList)
  /\ (plainIds availableCategoriesList = true ->
      availableCategories (state_of (settings (inr ∅) (inr ∅) (s, w))) = [])
  /\ (plainIds availablePaymentMethodsList = true ->
      availablePaymentMethods (state_of (settings (inr ∅) (inr ∅) (s, w))) = [])
  /\ log (world_of (settings (inr ∅) (inr ∅) (s, w))) = log w.
Proof.
  rewrite loadSettings_run. cbv zeta. simpl.
  assert (Hnone : forall (A : Type) (E : Entity A) (l : list A),
             visibleItems l ∅ =
             map (fun x => Item.mk (id x) (name x))
               (List.filter (fun x => inherited (id x)) l)).
  { intros A E l. unfold visibleItems.
    rewrite (List.filter_ext (fun x => flag ∅ (id x)) (fun x => inherited (id x)));
      [reflexivity|].
    intros x. unfold flag. now rewrite lookup_empty. }
  assert (Hplain : forall (A : Type) (E : Entity A) (l : list A),
             plainIds l = true -> visibleItems l ∅ = []).
  { intros A E l Hl. rewrite Hnone.
    rewrite (filter_ext_in_list _ (fun _ => false)).
    - clear Hl. induction l as [|x l IH]; [reflexivity|exact IH].
    - intros x Hx. now apply (plainIds_elem l). }
  split; [apply Hnone|]. split; [apply Hnone|].
  split; [apply Hplain|]. split; [apply Hplain|reflexivity].
Qed.

(** X15.  When every master entry is flagged true, every one is offered:
    the list on offer is the whole master list, projected. *)
Theorem loadSettings_all_visible (vc : gmap string bool)
    (rp : Exn + gmap string bool) (s : State) (w : World) :
  (forall c, c ∈ availableCategoriesList -> vc !! id c = Some true) ->
  availableCategories (state_of (settings (inr vc) rp (s, w))) =
  map (fun c => Item.mk (id c) (name c)) availableCategoriesList.
Proof.
  intros Hall. rewrite loadSettings_run. cbv zeta.
  assert (Hvis : visibleItems availableCategoriesList vc =
                 map (fun c => Item.mk (id c) (name c)) availableCategoriesList).
  { unfold visibleItems. f_equal. revert Hall.
    induction availableCategoriesList as [|x l IH]; intros Hall; [reflexivity|].
    simpl. unfold flag at 1. rewrite (Hall x) by (left). f_equal.
    apply IH. intros c Hc. apply Hall. now right. }
  destruct rp; [rewrite dispatch_state|]; exact Hvis.
Qed.

(** X16.  Switching one category off and reloading removes the entries
    with that id from the list on offer and nothing else: the new list
    is the old one without them.  Switching it on and reloading puts
    every master entry with that id on offer. *)
Theorem loadSettings_toggle (vc vp : gmap string bool) (key : string)
    (s s' : State) (w w' : World) :
  availableCategories
    (state_of (settings (inr (<[key := false]> vc)) (inr vp) (s', w'))) =
  List.filter (fun item => negb (String.eqb (Item.id item) key))
    (availableCategories (state_of (settings (inr vc) (inr vp) (s, w))))
  /\ forall c : Category,
       c ∈ availableCategoriesList -> id c = key ->
       Item.mk (id c) (name c) ∈
       availableCategories
         (state_of (settings (inr (<[key := true]> vc)) (inr vp) (s', w'))).
Proof.
  rewrite !loadSettings_run. cbv zeta. split; [apply visibleItems_toggle_off|].
  intros c Hc Hkey. apply visibleItems_elem. exists c.
  rewrite Hkey, lookup_insert_eq. rewrite <- Hkey. auto.
Qed.

(** X17.  When the ids of the master list are pairwise distinct, so are
    the ids of the categories on offer. *)
Theorem loadSettings_distinct_ids (vc : gmap string bool)
    (rp : Exn + gmap string bool) (s : State) (w : World) :
  NoDup (map id availableCategoriesList) ->
  NoDup (map Item.id (availableCategories (state_of (settings (inr vc) rp (s, w))))).
Proof.
  intros Hnodup. rewrite loadSettings_run. cbv zeta.
  assert (Hvis : NoDup (map Item.id (visibleItems availableCategoriesList vc))).
  { rewrite visibleItems_ids. eapply sublist_NoDup; [exact Hnodup|apply filter_sublist]. }
  destruct rp; [rewrite dispatch_state|]; exact Hvis.
Qed.

End LoadersMore.

(** ** The screen over a sequence of events *)

Lemma expenseIds_app (l k : list Action) :
  expenseIds (l ++ k) = expenseIds l ++ expenseIds k.
Proof.
  induction l as [|[e|m t] l IH]; simpl; [reflexivity| |exact IH].
  now rewrite IH.
Qed.

Lemma map_inj_NoDup {A B : Type} (f : A -> B) (l : list A) :
  (forall x y, f x = f y -> x = y) -> NoDup l -> NoDup (map f l).
Proof.
  intros Hinj. induction 1 as [|x l Hx Hl IH]; simpl; constructor; [|exact IH].
  rewrite list_elem_of_In, in_map_iff. intros [y [Hy Hin]].
  apply Hinj in Hy. subst y. apply Hx. now apply list_elem_of_In.
Qed.

Section Traces.

Context {Group Category PaymentMethod : Type}.
Context `{!Entity Group, !Entity Category, !Entity PaymentMethod}.
Variable availableCategoriesList : list Category.
Variable availablePaymentMethodsList : list PaymentMethod.
Variable generateUUID : nat -> string.
Variable dispatch_throws : Action -> bool.

Local Abbreviation press σ := (handleAddExpense generateUUID dispatch_throws σ).

Local Abbreviation step1 ev x :=
  (step (Group := Group) availableCategoriesList availablePaymentMethodsList
     generateUUID dispatch_throws ev x).

Local Abbreviation runs evs x :=
  (run_events (Group := Group) availableCategoriesList availablePaymentMethodsList
     generateUUID dispatch_throws evs x).

(** The state a press can leave behind. *)
Lemma press_state (s : State) (w : World) :
  state_of (press (s, w)) = s
  \/ state_of (press (s, w)) = withFeedback "Please fill out all fields" false s
  \/ state_of (press (s, w)) = withFeedback "Failed to add expense" false s
  \/ state_of (press (s, w)) =
     withFeedback "Expense added successfully" true (resetForm s).
Proof.
  rewrite handleAddExpense_run. destruct (filled s); [|auto].
  destruct (toISOString _); [auto|]. cbv zeta.
  destruct (dispatch_throws _); auto.
Qed.

(** What one event adds to the log and to the count of identifiers. *)
Lemma step_world (ev : Event Group) (x : Screen) :
  (log (env (step1 ev x)) = log (env x)
   /\ uuid_calls (env x) <= uuid_calls (env (step1 ev x)) <= S (uuid_calls (env x)))%nat
  \/ (exists message,
        log (env (step1 ev x)) = log (env x) ++ [showToast message "error"]
        /\ (message = "Failed to load groups" \/ message = "Failed to load settings")
        /\ uuid_calls (env (step1 ev x)) = uuid_calls (env x))
  \/ (exists e,
        ev = AddPressed
        /\ log (env (step1 ev x)) = log (env x) ++ [addExpense e]
        /\ sentByScreen (addExpense e)
        /\ Expense.id e = generateUUID (uuid_calls (env x))
        /\ uuid_calls (env (step1 ev x)) = S (uuid_calls (env x))).
Proof.
  destruct x as [s w c].
  destruct ev; cbn [step after ui env console];
    try (left; destruct s; cbn; split; [reflexivity|lia]).
  - (* AddPressed *)
    rewrite handleAddExpense_run. destruct (filled s) eqn:Hfilled.
    + destruct (toISOString _) as [err|date]; cbv zeta.
      * left. cbn. split; [reflexivity|lia].
      * right; right. exists (draft generateUUID s w date).
        apply filled_iff in Hfilled. destruct Hfilled as [Ha [Hc [Hd [Hp Hg]]]].
        split; [reflexivity|].
        split; [destruct (dispatch_throws _); reflexivity|].
        split.
        { cbn. rewrite !head_lookup0.
          destruct (category s), (paymentMethod s), (group s); try congruence.
          repeat split; auto; discriminate. }
        split; [reflexivity|destruct (dispatch_throws _); reflexivity].
    + left. cbn. split; [reflexivity|lia].
  - (* GroupsLoaded *)
    rewrite loadGroups_run. destruct getGroups as [err|[|first rest]]; cbv zeta.
    + right; left. exists "Failed to load groups". rewrite dispatch_run. cbn. auto.
    + left. cbn. split; [reflexivity|lia].
    + left. cbn. split; [reflexivity|lia].
  - (* SettingsLoaded *)
    rewrite loadSettings_run.
    destruct getVisibleCategories as [e1|vc];
      [|destruct getVisiblePaymentMethods as [e2|vp]]; cbv zeta.
    + right; left. exists "Failed to load settings". rewrite dispatch_run. cbn. auto.
    + right; left. exists "Failed to load settings". rewrite dispatch_run. cbn. auto.
    + left. cbn. split; [reflexivity|lia].
Qed.

(** User events leave the three option lists alone. *)
Lemma step_user_options (ev : Event Group) (x : Screen) :
  fromUser ev = true -> options (ui (step1 ev x)) = options (ui x).
Proof.
  destruct x as [s w c].
  destruct ev; try discriminate; intros _; cbn [step after ui env console];
    try (destruct s; reflexivity).
  destruct (press_state s w) as [-> | [-> | [-> | ->]]]; reflexivity.
Qed.

(** After one event each settings list is what it was or a freshly
    filtered master list. *)
Lemma step_offers (ev : Event Group) (x : Screen) :
  (availableCategories (ui (step1 ev x)) = availableCategories (ui x)
   \/ exists vc, availableCategories (ui (step1 ev x)) =
                 visibleItems availableCategoriesList vc)
  /\ (availablePaymentMethods (ui (step1 ev x)) = availablePaymentMethods (ui x)
      \/ exists vp, availablePaymentMethods (ui (step1 ev x)) =
                    visibleItems availablePaymentMethodsList vp).
Proof.
  destruct (fromUser ev) eqn:Huser.
  - pose proof (step_user_options ev x Huser) as Hopt.
    unfold options in Hopt. injection Hopt as _ Hc Hp. auto.
  - destruct x as [s w c]. destruct ev; try discriminate;
      cbn [step after ui env console].
    + rewrite loadGroups_run. destruct getGroups as [err|[|first rest]]; cbv zeta;
        rewrite ?dispatch_state; destruct s; cbn; auto.
    + rewrite loadSettings_run.
      destruct getVisibleCategories as [e1|vc];
        [|destruct getVisiblePaymentMethods as [e2|vp]]; cbv zeta;
        rewrite ?dispatch_state; destruct s; cbn;
        (split; first [left; reflexivity | right; eexists; reflexivity]).
    + auto.
Qed.

Lemma step_feedbackShape (ev : Event Group) (x : Screen) :
  feedbackShape (ui x) -> feedbackShape (ui (step1 ev x)).
Proof.
  destruct x as [s w c]. unfold feedbackShape.
  destruct ev; cbn [step after ui env console];
    try (destruct s; cbn; intros H; exact H).
  - (* AddPressed *)
    destruct (press_state s w) as [-> | [-> | [-> | ->]]]; cbn; auto 6.
  - (* SnackbarDismissed *)
    destruct s; cbn. intuition.
  - (* GroupsLoaded *)
    rewrite loadGroups_run. destruct getGroups as [err|[|first rest]]; cbv zeta;
      rewrite ?dispatch_state; destruct s; cbn; intros H; exact H.
  - (* SettingsLoaded *)
    rewrite loadSettings_run.
    destruct getVisibleCategories as [e1|vc];
      [|destruct getVisiblePaymentMethods as [e2|vp]]; cbv zeta;
      rewrite ?dispatch_state; destruct s; cbn; intros H; exact H.
Qed.

(** X18.  However the session goes, the screen only ever offers
    categories and payment methods taken from the master lists, in
    master-list order. *)
Theorem run_events_offers_from_master (evs : list (Event Group)) (w : World) :
  sublist (availableCategories (ui (runs evs (mounted w))))
    (map (fun c => Item.mk (id c) (name c)) availableCategoriesList)
  /\ sublist (availablePaymentMethods (ui (runs evs (mounted w))))
       (map (fun m => Item.mk (id m) (name m)) availablePaymentMethodsList).
Proof.
  assert (Hinv : forall x,
             sublist (availableCategories (ui x)) (map project availableCategoriesList)
             /\ sublist (availablePaymentMethods (ui x))
                  (map project availablePaymentMethodsList) ->
             sublist (availableCategories (ui (runs evs x)))
               (map project availableCategoriesList)
             /\ sublist (availablePaymentMethods (ui (runs evs x)))
                  (map project availablePaymentMethodsList)).
  { induction evs as [|ev evs IH]; intros x Hx; [exact Hx|].
    simpl. apply IH. destruct Hx as [Hc Hp].
    destruct (step_offers ev x) as [[-> | [vc ->]] [-> | [vp ->]]];
      auto using visibleItems_sublist. }
  apply Hinv. split; apply sublist_nil_l.
Qed.

(** X19.  However the session goes, the snackbar shows nothing or one
    of the three fixed messages; it is green exactly when its text is
    the success message or still empty, and whenever it is visible its
    text is not empty. *)
Theorem run_events_snackbar (evs : list (Event Group)) (w : World) :
  let bar := View.snackbar (render (ui (runs evs (mounted w)))) in
  (View.children bar = "" \/ View.children bar = "Please fill out all fields"
   \/ View.children bar = "Failed to add expense"
   \/ View.children bar = "Expense added successfully")
  /\ (View.backgroundColor bar = "#4CAF50" <->
      View.children bar = "Expense added successfully" \/ View.children bar = "")
  /\ (View.visible bar = true -> View.children bar <> "").
Proof.
  assert (Hinv : forall x, feedbackShape (ui x) -> feedbackShape (ui (runs evs x))).
  { induction evs as [|ev evs IH]; intros x Hx; [exact Hx|].
    simpl. apply IH, step_feedbackShape, Hx. }
  specialize (Hinv (mounted w)). cbv zeta.
  destruct (ui (runs evs (mounted w))) as [a c d sd pm g ag ac ap fm sv ss].
  unfold feedbackShape in Hinv. cbn in *.
  destruct Hinv as [[-> [-> ->]]|[[-> ->]|[[-> ->]|[-> ->]]]]; [left; auto| | | |];
    (split; [auto|]); (split; [split; [intros; auto; discriminate|]|]);
    try (intros [H|H]; (reflexivity || discriminate H));
    try (intros; discriminate).
Qed.

(** What a sequence of events adds to the log: the actions, and the
    calls of the generator that produced the ids of the expenses among
    them. *)
Lemma run_events_log (evs : list (Event Group)) (x : Screen) :
  exists added ks,
    log (env (runs evs x)) = log (env x) ++ added
    /\ Forall sentByScreen added
    /\ expenseIds added = map generateUUID ks
    /\ (length ks <= length (List.filter isAddPressed evs))%nat
    /\ Forall (fun k => uuid_calls (env x) <= k < uuid_calls (env (runs evs x)))%nat ks
    /\ NoDup ks
    /\ (uuid_calls (env x) <= uuid_calls (env (runs evs x)))%nat.
Proof.
  revert x. induction evs as [|ev evs IH]; intros x.
  - exists [], []. simpl. rewrite app_nil_r.
    repeat split; auto; constructor.
  - simpl. destruct (IH (step1 ev x)) as [added [ks [Hlog [Hsent [Hids [Hlen [Hks [Hnd Hle]]]]]]]].
    destruct (step_world ev x) as [[H1 Hu]|[[message [H1 [Hm Hu]]]|[e [Hev [H1 [He [Hid Hu]]]]]]].
    + exists added, ks. rewrite Hlog, H1.
      repeat split; auto.
      * destruct (isAddPressed ev); simpl; lia.
      * eapply Forall_impl; [exact Hks|]. cbv beta. intros k Hk. lia.
      * lia.
    + exists (showToast message "error" :: added), ks.
      rewrite Hlog, H1, <- app_assoc.
      cbn [app expenseIds map length].
      repeat split; auto.
      * constructor; [simpl; auto|exact Hsent].
      * destruct (isAddPressed ev); simpl; lia.
      * eapply Forall_impl; [exact Hks|]. cbv beta. intros k Hk. lia.
      * lia.
    + exists (addExpense e :: added), (uuid_calls (env x) :: ks).
      rewrite Hlog, H1, <- app_assoc. subst ev.
      cbn [app expenseIds map length List.filter isAddPressed].
      repeat split; auto.
      * rewrite Hid, Hids. reflexivity.
      * lia.
      * constructor; [lia|]. eapply Forall_impl; [exact Hks|]. cbv beta. intros k Hk. lia.
      * constructor; [|exact Hnd]. intros Hin.
        rewrite Forall_forall in Hks. apply Hks in Hin. lia.
      * lia.
Qed.

(** X20.  However the session goes, everything the screen hands to the
    store is one of the two load-failure toasts or a complete expense
    (non-empty description; category, payment method and group
    defined), and it hands over at most one expense per press of the
    button. *)
Theorem run_events_store_discipline (evs : list (Event Group)) (x : Screen) :
  exists added,
    log (env (runs evs x)) = log (env x) ++ added
    /\ Forall sentByScreen added
    /\ (length (expenseIds added) <= length (List.filter isAddPressed evs))%nat.
Proof.
  destruct (run_events_log evs x) as [added [ks [Hlog [Hsent [Hids [Hlen _]]]]]].
  exists added. rewrite Hids, length_map. auto.
Qed.

(** X21.  When the generator never repeats itself, the expenses handed
    to the store in the course of a session carry pairwise distinct
    ids. *)
Theorem run_events_distinct_ids (evs : list (Event Group)) (x : Screen) :
  (forall m n, generateUUID m = generateUUID n -> m = n) ->
  exists added,
    log (env (runs evs x)) = log (env x) ++ added
    /\ NoDup (expenseIds added).
Proof.
  intros Hinj.
  destruct (run_events_log evs x) as [added [ks [Hlog [_ [Hids [_ [_ [Hnd _]]]]]]]].
  exists added. split; [exact Hlog|]. rewrite Hids. now apply map_inj_NoDup.
Qed.

Lemma run_events_user_keeps_options_aux (evs : list (Event Group)) (x : Screen) :
  forallb fromUser evs = true ->
  options (ui (runs evs x)) = options (ui x).
Proof.
  revert x. induction evs as [|ev evs IH]; intros x Hall; [reflexivity|].
  simpl in *. apply andb_true_iff in Hall. destruct Hall as [Hev Hall].
  rewrite (IH _ Hall). now apply step_user_options.
Qed.

(** X22.  Nothing the user does on the screen changes what is on offer:
    over a sequence of events that come from the elements of the screen
    alone, the three option lists stay as they were. *)
Theorem run_events_user_keeps_options (evs : list (Event Group)) (x : Screen) :
  forallb fromUser evs = true ->
  options (ui (runs evs x)) = options (ui x).
Proof.
  revert x. induction evs as [|ev evs IH]; intros x Hall; [reflexivity|].
  cbn [forallb run_events] in *.
  apply andb_true_iff in Hall. destruct Hall as [Hev Hall].
  rewrite (IH _ Hall). apply step_user_options, Hev.
Qed.

(** X23.  Canceling the date picker writes one line to the console and
    does nothing else; nothing else writes there.  Over a session the
    console gains one line per cancel. *)
Theorem run_events_console (evs : list (Event Group)) (x : Screen) :
  console (runs evs x) =
  console x
  ++ repeat "Date selection canceled" (length (List.filter isDateCanceled evs))
  /\ (forallb isDateCanceled evs = true ->
      ui (runs evs x) = ui x /\ env (runs evs x) = env x).
Proof.
  revert x. induction evs as [|ev evs IH]; intros x.
  - simpl. rewrite app_nil_r. auto.
  - simpl. destruct (IH (step1 ev x)) as [Hc Hsame]. rewrite Hc. split.
    + destruct ev; destruct x as [s w c]; cbn [step after ui env console isDateCanceled];
        try reflexivity.
      unfold handleDateCancel. rewrite <- app_assoc. reflexivity.
    + intros Hall. apply andb_true_iff in Hall. destruct Hall as [Hev Hall].
      destruct ev; try discriminate Hev. destruct (Hsame Hall) as [-> ->].
      destruct x; auto.
Qed.

(** X24.  Until the button is pressed the snackbar stays hidden and
    empty: a failed load is reported by a toast, never in the
    snackbar, and nothing reaches the store but toasts. *)
Theorem run_events_no_press (evs : list (Event Group)) (w : World) :
  forallb (fun ev => negb (isAddPressed ev)) evs = true ->
  View.snackbar (render (ui (runs evs (mounted w)))) =
  View.mkSnackbar false 3000 "#4CAF50" ""
  /\ expenseIds (log (env (runs evs (mounted w)))) = expenseIds (log w).
Proof.
  assert (Hinv : forall x,
             forallb (fun ev => negb (isAddPressed ev)) evs = true ->
             feedback (ui x) = ("", true, false) ->
             feedback (ui (runs evs x)) = ("", true, false)
             /\ expenseIds (log (env (runs evs x))) = expenseIds (log (env x))).
  { induction evs as [|ev evs IH]; intros x Hall Hx; [auto|].
    simpl in *. apply andb_true_iff in Hall. destruct Hall as [Hev Hall].
    assert (Hstep : feedback (ui (step1 ev x)) = ("", true, false)
                    /\ expenseIds (log (env (step1 ev x))) = expenseIds (log (env x))).
    { destruct x as [s w0 c].
      destruct ev; try discriminate Hev; cbn [step after ui env console] in *;
        try (destruct s; cbn in *; injection Hx as -> -> ->; split; reflexivity).
      - rewrite loadGroups_run. destruct getGroups as [err|[|first rest]]; cbv zeta;
          rewrite ?dispatch_state, ?dispatch_run; destruct s; cbn in *;
          rewrite ?expenseIds_app; cbn; rewrite ?app_nil_r; auto.
      - rewrite loadSettings_run.
        destruct getVisibleCategories as [e1|vc];
          [|destruct getVisiblePaymentMethods as [e2|vp]]; cbv zeta;
          rewrite ?dispatch_state, ?dispatch_run; destruct s; cbn in *;
          rewrite ?expenseIds_app; cbn; rewrite ?app_nil_r; auto. }
    destruct Hstep as [Hf Hl]. destruct (IH _ Hall Hf) as [Hf' Hl'].
    split; [exact Hf'|congruence]. }
  intros Hall. destruct (Hinv (mounted w) Hall eq_refl) as [Hf Hl].
  split; [|exact Hl].
  destruct (ui (runs evs (mounted w))). cbn in *. now injection Hf as -> -> ->.
Qed.

(** X25.  The group the loader pre-selected comes back after every
    stored submission: once a non-empty group list is loaded, whatever
    the user then does on the screen, a press of the button whose
    record is stored leaves the first loaded group selected. *)
Theorem run_events_group_restored (first : Group) (others : list Group)
    (evs : list (Event Group)) (x : Screen) (e : Expense.t) :
  forallb fromUser evs = true ->
  log (env (runs (GroupsLoaded (inr (first :: others)) :: evs ++ [AddPressed]) x)) =
  log (env (runs (GroupsLoaded (inr (first :: others)) :: evs) x)) ++ [addExpense e] ->
  dispatch_throws (addExpense e) = false ->
  group (ui (runs (GroupsLoaded (inr (first :: others)) :: evs ++ [AddPressed]) x)) =
  [id first].
Proof.
  intros Huser.
  assert (Hsplit : forall l y, runs (l ++ [AddPressed]) y = step1 AddPressed (runs l y)).
  { induction l as [|ev l IH]; intros y; simpl; [reflexivity|apply IH]. }
  cbn [run_events]. rewrite Hsplit.
  set (x1 := step1 (GroupsLoaded (inr (first :: others))) x).
  pose proof (run_events_user_keeps_options_aux evs x1 Huser) as Hopt.
  assert (Hgroups : availableGroups (ui x1) = project first :: map project others).
  { subst x1. destruct x as [s w c]. cbn [step after ui env console].
    rewrite loadGroups_run. destruct s; reflexivity. }
  assert (Hag : availableGroups (ui (runs evs x1)) =
                project first :: map project others).
  { rewrite <- Hgroups. unfold options in Hopt. congruence. }
  clear Hopt Hgroups.
  destruct (runs evs x1) as [s2 w2 c2]. cbn [step after ui env console] in *.
  intros Hlog Hok. apply handleAddExpense_logged in Hlog.
  destruct Hlog as [_ [date [_ [_ Hrun]]]]. rewrite Hok in Hrun. rewrite Hrun.
  cbn. rewrite Hag. reflexivity.
Qed.

End Traces.

(** ** The further theorems at concrete inputs *)

Lemma handleAddExpense_record_complete_witness :
  Expense.id Sample.lunchRecord = Sample.uuid (uuid_calls Sample.world)
  /\ amount Sample.lunch <> ""
  /\ Expense.amount Sample.lunchRecord = parseFloat (amount Sample.lunch)
  /\ Expense.description Sample.lunchRecord = description Sample.lunch
  /\ Expense.description Sample.lunchRecord <> ""
  /\ Expense.category Sample.lunchRecord = head (category Sample.lunch)
  /\ Expense.category Sample.lunchRecord <> None
  /\ Expense.paymentMethod Sample.lunchRecord = head (paymentMethod Sample.lunch)
  /\ Expense.paymentMethod Sample.lunchRecord <> None
  /\ Expense.group Sample.lunchRecord = head (group Sample.lunch)
  /\ Expense.group Sample.lunchRecord <> None.
Proof.
  apply (handleAddExpense_record_complete Sample.uuid Sample.accepts
           Sample.lunch Sample.world Sample.lunchRecord).
  reflexivity.
Defined.

Lemma handleAddExpense_throw_is_silent_witness :
  state_of (handleAddExpense Sample.uuid Sample.accepts
              (Sample.lunchInvalidDate, Sample.world)) = Sample.lunchInvalidDate
  /\ log (world_of (handleAddExpense Sample.uuid Sample.accepts
                      (Sample.lunchInvalidDate, Sample.world))) = log Sample.world
  /\ uuid_calls (world_of (handleAddExpense Sample.uuid Sample.accepts
                             (Sample.lunchInvalidDate, Sample.world))) =
     S (uuid_calls Sample.world).
Proof.
  apply (handleAddExpense_throw_is_silent Sample.uuid Sample.accepts
           Sample.lunchInvalidDate Sample.world (RangeError "Invalid time value")).
  reflexivity.
Defined.

Lemma handleAddExpense_green_iff_stored_witness :
  View.visible
    (View.snackbar
       (render (state_of (handleAddExpense Sample.uuid Sample.rejects
                            (Sample.lunch, Sample.world))))) = true
  /\ (View.backgroundColor
        (View.snackbar
           (render (state_of (handleAddExpense Sample.uuid Sample.rejects
                                (Sample.lunch, Sample.world))))) = "#4CAF50"
      <-> exists e,
            log (world_of (handleAddExpense Sample.uuid Sample.rejects
                             (Sample.lunch, Sample.world))) =
            log Sample.world ++ [addExpense e]
            /\ Sample.rejects (addExpense e) = false).
Proof.
  apply (handleAddExpense_green_iff_stored Sample.uuid Sample.rejects
           Sample.lunch Sample.world).
  reflexivity.
Defined.

Lemma handleAddExpense_second_press_rejected_witness :
  log (world_of (handleAddExpense Sample.uuid Sample.accepts
                   (state_of (handleAddExpense Sample.uuid Sample.accepts
                                (Sample.lunch, Sample.world)),
                    Sample.world))) = log Sample.world
  /\ feedback (state_of (handleAddExpense Sample.uuid Sample.accepts
                           (state_of (handleAddExpense Sample.uuid Sample.accepts
                                        (Sample.lunch, Sample.world)),
                            Sample.world))) =
     ("Please fill out all fields", false, true).
Proof.
  apply (handleAddExpense_second_press_rejected Sample.uuid Sample.accepts
           Sample.lunch Sample.world Sample.world Sample.lunchRecord);
    reflexivity.
Defined.

Example retry_draws_new_id :
  log (world_of (handleAddExpense Sample.uuid Sample.rejects
                   (state_of (handleAddExpense Sample.uuid Sample.rejects
                                (Sample.lunch, Sample.world)),
                    world_of (handleAddExpense Sample.uuid Sample.rejects
                                (Sample.lunch, Sample.world))))) =
  [addExpense Sample.lunchRecord;
   addExpense
     (Expense.mk "exp-4" (S754_finite false 7036874417766400 (-49)) (Some "food")
        "lunch" "2023-11-14T22:13:20.000Z" (Some "cash") (Some "g1"))].
Proof. vm_compute. reflexivity. Qed.

Lemma handleAddExpense_retry_witness :
  exists e2,
    log (world_of (handleAddExpense Sample.uuid Sample.rejects
                     (state_of (handleAddExpense Sample.uuid Sample.rejects
                                  (Sample.lunch, Sample.world)),
                      Session.afterFailure))) =
    log Session.afterFailure ++ [addExpense e2]
    /\ Expense.id e2 = Sample.uuid (uuid_calls Session.afterFailure)
    /\ Expense.id e2 <> Expense.id Sample.lunchRecord
    /\ Expense.amount e2 = Expense.amount Sample.lunchRecord
    /\ Expense.category e2 = Expense.category Sample.lunchRecord
    /\ Expense.description e2 = Expense.description Sample.lunchRecord
    /\ Expense.paymentMethod e2 = Expense.paymentMethod Sample.lunchRecord
    /\ Expense.group e2 = Expense.group Sample.lunchRecord
    /\ (selectedDate Sample.lunch <> None
        \/ clock Session.afterFailure = clock Sample.world ->
        Expense.date e2 = Expense.date Sample.lunchRecord).
Proof.
  apply (handleAddExpense_retry Sample.uuid Sample.rejects
           Sample.lunch Sample.world Session.afterFailure Sample.lunchRecord);
    [apply sample_uuid_contract | reflexivity | reflexivity | exact (le_n 4)].
Defined.

Lemma handleDateConfirm_then_submit_witness :
  exists e,
    log (world_of (handleAddExpense Sample.uuid Sample.accepts
                     (state_of (handleDateConfirm (mkDate (Some 0))
                                  (Sample.lunch, Sample.world)),
                      Sample.world))) = log Sample.world ++ [addExpense e]
    /\ Expense.date e = format_iso 0
    /\ Expense.description e = description Sample.lunch.
Proof.
  apply (handleDateConfirm_then_submit Sample.uuid Sample.accepts
           Sample.lunch Sample.world 0).
  reflexivity.
Defined.

Lemma handleAddExpense_digit_amount_witness :
  Expense.amount Sample.lunchRecord <> NaN.
Proof.
  apply (handleAddExpense_digit_amount Sample.uuid Sample.accepts
           Sample.lunch Sample.world Sample.lunchRecord "1"%char 1 "2.50");
    reflexivity.
Defined.

Lemma handleAddExpense_blank_amount_witness :
  exists e,
    log (world_of (handleAddExpense Sample.uuid Sample.accepts
                     (Session.blankAmount, Sample.world))) =
    log Sample.world ++ [addExpense e]
    /\ Expense.amount e = NaN
    /\ Expense.date e = format_iso (clock Sample.world).
Proof.
  apply (handleAddExpense_blank_amount Sample.uuid Sample.accepts
           Session.blankAmount Sample.world);
    [discriminate | reflexivity | discriminate | discriminate | discriminate
    | discriminate | reflexivity].
Defined.

Lemma loadSettings_all_visible_witness :
  availableCategories
    (state_of (loadSettings Sample.categories Sample.paymentMethods Sample.accepts
                 (inr Session.allOn) (inl (Error "offline"))
                 (initialState, Sample.world))) =
  map (fun c => Item.mk (id c) (name c)) Sample.categories.
Proof.
  apply (loadSettings_all_visible Sample.categories Sample.paymentMethods
           Sample.accepts Session.allOn (inl (Error "offline")) initialState
           Sample.world).
  intros c Hc. apply list_elem_of_In in Hc.
  destruct Hc as [<-|[<-|[<-|[]]]]; reflexivity.
Defined.

Lemma loadSettings_distinct_ids_witness :
  NoDup (map Item.id
           (availableCategories
              (state_of (loadSettings Sample.categories Sample.paymentMethods
                           Sample.accepts (inr Session.allOn) (inr ∅)
                           (initialState, Sample.world))))).
Proof.
  apply (loadSettings_distinct_ids Sample.categories Sample.paymentMethods
           Sample.accepts Session.allOn (inr ∅) initialState Sample.world).
  apply (bool_decide_unpack _). reflexivity.
Defined.

Lemma run_events_distinct_ids_witness :
  exists added,
    log (env (run_events Sample.categories Sample.paymentMethods Sample.uuid
                Sample.accepts Session.events (mounted Sample.world))) =
    log (env (mounted Sample.world)) ++ added
    /\ NoDup (expenseIds added).
Proof.
  apply (run_events_distinct_ids Sample.categories Sample.paymentMethods
           Sample.uuid Sample.accepts Session.events (mounted Sample.world)).
  apply sample_uuid_contract.
Defined.

Lemma run_events_user_keeps_options_witness :
  options (ui (run_events Sample.categories Sample.paymentMethods Sample.uuid
                 Sample.accepts Session.uiOnly (mounted Sample.world))) =
  options (ui (mounted Sample.world)).
Proof.
  apply (run_events_user_keeps_options Sample.categories Sample.paymentMethods
           Sample.uuid Sample.accepts Session.uiOnly (mounted Sample.world)).
  reflexivity.
Defined.

Lemma run_events_no_press_witness :
  View.snackbar
    (render (ui (run_events Sample.categories Sample.paymentMethods Sample.uuid
                   Sample.accepts Session.noPress (mounted Sample.world)))) =
  View.mkSnackbar false 3000 "#4CAF50" ""
  /\ expenseIds
       (log (env (run_events Sample.categories Sample.paymentMethods Sample.uuid
                    Sample.accepts Session.noPress (mounted Sample.world)))) =
     expenseIds (log Sample.world).
Proof.
  apply (run_events_no_press Sample.categories Sample.paymentMethods Sample.uuid
           Sample.accepts Session.noPress Sample.world).
  reflexivity.
Defined.

Lemma run_events_group_restored_witness :
  group
    (ui (run_events Sample.categories Sample.paymentMethods Sample.uuid
           Sample.accepts
           (GroupsLoaded (inr Sample.groups) :: Session.fillIn ++ [AddPressed])
           (mounted Sample.world))) =
  ["g1"].
Proof.
  exact (run_events_group_restored Sample.categories Sample.paymentMethods
           Sample.uuid Sample.accepts
           (Sample.mkGroup "g1" "Flat" ["ann"; "bob"])
           [Sample.mkGroup "g2" "Trip" ["ann"]]
           Session.fillIn (mounted Sample.world) Sample.lunchRecord
           eq_refl eq_refl eq_refl).
Defined.
